(** * Measurement listing and payload retrieval (measurements/api/measurements.py)

    A shallow embedding of [list_measurements], [_merge_results],
    [get_measurement] and [get_one_fastpath_measurement], followed by the
    properties of the dual-source merge, the pagination metadata, the
    filter normalisation and the error behaviour.

    Conventions of the embedding:
    - Python [str] is [string] (code points below 256), [bytes] is
      [list byte], [int] is [Z];
    - a raised exception is the [Raise] constructor of [result];
    - a Python [dict] with string keys is a [gmap string pyval], except
      where the insertion order is observable (the [next_args] of the
      pagination link and the [resultsmap] of [_merge_results]), which are
      association lists;
    - SQL NULL is [None]; the SQL text assembled by the code is kept as
      text, and the engine that evaluates it is an interface ([App]). *)

From Stdlib Require Import ZArith String Ascii List Lia.
From Stdlib.Strings Require Import Byte.
From Stdlib Require Import DecimalString DecimalPos DecimalZ Sorted.
From stdpp Require Import base option list gmap strings.

Local Open Scope string_scope.
Local Open Scope Z_scope.

(** ** Exceptions and results *)

(** [exc.orig] of a SQLAlchemy [OperationalError]: the driver-level error. *)
Inductive dbapi_orig :=
| QueryCanceledError
| OtherDriverError (name : string).

(** Python values that flow into exception arguments and response dicts. *)
Inductive pyval (json : Type) :=
| PNone
| PBool (b : bool)
| PInt (z : Z)
| PStr (s : string)
| PTime (t : Z)
| PSeconds (micros : Z)
| PJson (j : json).
Arguments PNone {json}.
Arguments PBool {json} b.
Arguments PInt {json} z.
Arguments PStr {json} s.
Arguments PTime {json} t.
Arguments PSeconds {json} micros.
Arguments PJson {json} j.

#[export] Instance pyval_eq_dec {json} `{EqDecision json} :
  EqDecision (pyval json).
Proof. solve_decision. Defined.

#[export] Instance byte_eq_dec : EqDecision byte := Byte.byte_eq_dec.

(** The further arguments of a [RuntimeError]: lengths and byte strings. *)
Inductive exn_arg :=
| AInt (z : Z)
| ABytes (b : list byte).

(** The exceptions the two endpoints can raise.  [HTTPException code d] is
    a werkzeug HTTP exception: [BadRequest(msg)] has code 400 and
    description [msg]; [abort(code)] raises the exception registered for
    [code] with its default description (here [None]). *)
Inductive exn :=
| HTTPException (code : Z) (description : option string)
| ValueError (msg : string)
| AttributeError (msg : string)
| ZeroDivisionError
| AssertionError
| RuntimeError (msg : string) (args : list exn_arg)
| OperationalError (orig : dbapi_orig)
| SQLAlchemyError (name : string)
| RequestsHTTPError (status : Z)
| ConnectionError (msg : string)
| Lz4FramedError
| JSONDecodeError
| KeyError (key : string).

Definition BadRequest (msg : string) : exn := HTTPException 400 (Some msg).
Definition abort (code : Z) : exn := HTTPException code None.

(** werkzeug's [NotFound] is the HTTP exception with code 404. *)
Definition is_NotFound (e : exn) : bool :=
  match e with
  | HTTPException code _ => code =? 404
  | _ => false
  end.

(** A 4xx user error, as opposed to an internal (5xx) error. *)
Definition is_user_error (e : exn) : bool :=
  match e with
  | HTTPException code _ => (400 <=? code) && (code <? 500)
  | _ => false
  end.

(** An exception that is not an HTTP exception leaves the view function
    unhandled: Flask answers 500 and the Sentry Flask integration set up in
    [init_app] captures it.  HTTP exceptions are rendered as responses and
    are not captured. *)
Definition is_internal_error (e : exn) : bool :=
  match e with
  | HTTPException _ _ => false
  | _ => true
  end.

Definition sentry_captures (e : exn) : bool := is_internal_error e.

Inductive result (A : Type) :=
| Ok (a : A)
| Raise (e : exn).
Arguments Ok {A} a.
Arguments Raise {A} e.

#[export] Instance result_bind : MBind result := fun A B k r =>
  match r with
  | Ok a => k a
  | Raise e => Raise e
  end.

#[export] Instance result_ret : MRet result := fun A a => Ok a.

(** [try: body except Exception: raise e] *)
Definition except_Exception {A} (body : result A) (e : exn) : result A :=
  match body with
  | Ok a => Ok a
  | Raise _ => Raise e
  end.

(** A [for] loop that builds a list and stops at the first exception. *)
Fixpoint for_each {A B} (f : A -> result B) (l : list A) : result (list B) :=
  match l with
  | [] => Ok []
  | x :: l' => y ← f x; ys ← for_each f l'; Ok (y :: ys)
  end.

(** ** Strings, slices and integer conversion *)

(** [s.startswith(p)] *)
Definition startswith (s p : string) : bool := String.prefix p s.

(** [s[n:]] for a non-negative literal [n]. *)
Fixpoint str_drop (n : nat) (s : string) : string :=
  match n, s with
  | O, _ => s
  | S n', EmptyString => EmptyString
  | S n', String _ s' => str_drop n' s'
  end.

Definition ascii_lower (c : ascii) : ascii :=
  let n := nat_of_ascii c in
  if ((65 <=? n) && (n <=? 90))%nat then ascii_of_nat (n + 32) else c.

(** [s.lower()]; on code points below 256 only A-Z can become a-z, which is
    all the comparison with "asc" and "desc" looks at. *)
Fixpoint lower (s : string) : string :=
  match s with
  | EmptyString => EmptyString
  | String c s' => String (ascii_lower c) (lower s')
  end.

(** [s.replace(a, b)] for one-character [a] and [b]. *)
Fixpoint replace_char (a b : ascii) (s : string) : string :=
  match s with
  | EmptyString => EmptyString
  | String c s' => String (if Ascii.eqb c a then b else c) (replace_char a b s')
  end.

(** ["%s" % z] and ["{}".format(z)] for an int. *)
Definition str_of_Z (z : Z) : string := NilZero.string_of_int (Z.to_int z).

(** ["{}".format(v)] for a nullable integer column. *)
Definition format_opt_Z (v : option Z) : string :=
  match v with
  | Some z => str_of_Z z
  | None => "None"
  end.

(** ["%s" % v] for a nullable text column. *)
Definition format_opt_str (v : option string) : string :=
  match v with
  | Some s => s
  | None => "None"
  end.

(** Python's slice [l[lo:hi]] with step 1: negative bounds count from the
    end, and both bounds are clamped to the length. *)
Definition slice_index (len i : Z) : Z :=
  if i <? 0 then Z.max 0 (len + i) else Z.min i len.

Definition py_slice {A} (l : list A) (lo hi : Z) : list A :=
  let len := Z.of_nat (length l) in
  let lo' := slice_index len lo in
  let hi' := slice_index len hi in
  take (Z.to_nat (hi' - lo')) (drop (Z.to_nat lo') l).

(** [l[:hi]] and [l[lo:]] *)
Definition py_slice_to {A} (l : list A) (hi : Z) : list A := py_slice l 0 hi.
Definition py_slice_from {A} (l : list A) (lo : Z) : list A :=
  py_slice l lo (Z.of_nat (length l)).

Definition is_digit (c : ascii) : bool :=
  let n := nat_of_ascii c in ((48 <=? n) && (n <=? 57))%nat.

Definition digit_val (c : ascii) : Z := Z.of_nat (nat_of_ascii c) - 48.

(** The characters [int()] strips: those for which [str.isspace()] holds. *)
Definition py_isspace (c : ascii) : bool :=
  let n := nat_of_ascii c in
  (((9 <=? n) && (n <=? 13)) || ((28 <=? n) && (n <=? 32))
   || (n =? 133) || (n =? 160))%nat.

Fixpoint lstrip (s : string) : string :=
  match s with
  | String c s' => if py_isspace c then lstrip s' else s
  | EmptyString => EmptyString
  end.

Fixpoint rstrip (s : string) : string :=
  match s with
  | EmptyString => EmptyString
  | String c s' =>
      match rstrip s' with
      | EmptyString => if py_isspace c then EmptyString else String c EmptyString
      | r => String c r
      end
  end.

(** Digits of a decimal literal, with single underscores allowed between
    digits. [after_digit] tells whether the previous character was a digit. *)
Fixpoint int_digits (acc : Z) (after_digit : bool) (s : string) : option Z :=
  match s with
  | EmptyString => if after_digit then Some acc else None
  | String c s' =>
      if is_digit c then int_digits (10 * acc + digit_val c) true s'
      else if Ascii.eqb c "_" then
        (if after_digit then
           match s' with
           | EmptyString => None
           | String d _ => if is_digit d then int_digits acc false s' else None
           end
         else None)
      else None
  end.

(** [int(s)] for a [str] in base 10: surrounding whitespace, an optional
    sign, then the digits; anything else is a [ValueError]. *)
Definition py_int (s : string) : result Z :=
  let body := rstrip (lstrip s) in
  let parsed :=
    match body with
    | String "-" r => Z.opp <$> int_digits 0 false r
    | String "+" r => int_digits 0 false r
    | _ => int_digits 0 false body
    end in
  match parsed with
  | Some z => Ok z
  | None =>
      Raise (ValueError
               ("invalid literal for int() with base 10: '" +:+ s +:+ "'"))
  end.

(** ** Constants of the module *)

Definition MSM_ID_PREFIX : string := "temp-id".
Definition FASTPATH_MSM_ID_PREFIX : string := "temp-fid-".
Definition FASTPATH_SERVER : string := "fastpath.ooni.nu".
Definition FASTPATH_PORT : Z := 8000.

(** Special value for input = NULL to merge rows with FULL OUTER JOIN. *)
Definition INULL : string := "".

(** ** Rows of the two stores *)

(** SQL [coalesce] of two nullable values, and of a value with a literal. *)
Definition coalesce {A} (a b : option A) : option A :=
  match a with
  | Some _ => a
  | None => b
  end.

(** SQL equality in an ON clause: NULL never joins. *)
Definition sql_eq (a b : option string) : bool :=
  match a, b with
  | Some x, Some y => String.eqb x y
  | _, _ => false
  end.

(** The columns [cols] reads from measurement JOIN report JOIN domain_input. *)
Record mr_source := {
  s_report_test_start_time : option Z;
  s_measurement_start_time : option Z;
  s_msm_no : option Z;
  s_measurement_report_no : option Z;
  s_anomaly : option bool;
  s_confirmed : option bool;
  s_exc : option string;
  s_residual_no : option Z;
  s_report_id : option string;
  s_probe_cc : option string;
  s_probe_asn : option Z;
  s_test_name : option string;
  s_report_no : option Z;
  s_domain_input_input : option string
}.

(** A row of the [mr] subquery, after the projection [cols]. *)
Record mr_row := {
  mr_test_start_time : option Z;
  mr_measurement_start_time : option Z;
  mr_measurement_id : option string;
  mr_m_report_no : option Z;
  mr_anomaly : option bool;
  mr_confirmed : option bool;
  mr_failure : option bool;
  mr_scores : option string;
  mr_exc : option string;
  mr_residual_no : option Z;
  mr_report_id : option string;
  mr_probe_cc : option string;
  mr_probe_asn : option Z;
  mr_test_name : option string;
  mr_report_no : option Z;
  mr_input : option string
}.

(** [cols]: PostgreSQL's [concat] skips NULL arguments, [x IS NOT NULL] is
    never NULL, and [coalesce] with a literal is never NULL. *)
Definition cols (s : mr_source) : mr_row := {|
  mr_test_start_time := s_report_test_start_time s;
  mr_measurement_start_time := s_measurement_start_time s;
  mr_measurement_id :=
    Some (MSM_ID_PREFIX +:+ "-" +:+ from_option str_of_Z "" (s_msm_no s));
  mr_m_report_no := s_measurement_report_no s;
  mr_anomaly := coalesce (s_anomaly s) (Some false);
  mr_confirmed := coalesce (s_confirmed s) (Some false);
  mr_failure := Some (bool_decide (is_Some (s_exc s)));
  mr_scores := Some "{}";
  mr_exc := s_exc s;
  mr_residual_no := s_residual_no s;
  mr_report_id := s_report_id s;
  mr_probe_cc := s_probe_cc s;
  mr_probe_asn := s_probe_asn s;
  mr_test_name := s_test_name s;
  mr_report_no := s_report_no s;
  mr_input := coalesce (s_domain_input_input s) (Some INULL)
|}.

(** The columns [fpcols] reads from the fastpath table. *)
Record fp_source := {
  f_tid : option string;
  f_measurement_start_time : option Z;
  f_anomaly : option bool;
  f_confirmed : option bool;
  f_msm_failure : option bool;
  f_scores : option string;
  f_report_id : option string;
  f_probe_cc : option string;
  f_probe_asn : option Z;
  f_test_name : option string;
  f_input : option string
}.

(** A row of the [fp] subquery, after the projection [fpcols]. *)
Record fp_row := {
  fp_test_start_time : option Z;
  fp_measurement_start_time : option Z;
  fp_measurement_id : option string;
  fp_anomaly : option bool;
  fp_confirmed : option bool;
  fp_failure : option bool;
  fp_scores : option string;
  fp_report_id : option string;
  fp_probe_cc : option string;
  fp_probe_asn : option Z;
  fp_test_name : option string;
  fp_input : option string
}.

Definition fpcols (s : fp_source) : fp_row := {|
  fp_test_start_time := f_measurement_start_time s;
  fp_measurement_start_time := f_measurement_start_time s;
  fp_measurement_id := Some (FASTPATH_MSM_ID_PREFIX +:+ default "" (f_tid s));
  fp_anomaly := f_anomaly s;
  fp_confirmed := f_confirmed s;
  fp_failure := f_msm_failure s;
  fp_scores := f_scores s;
  fp_report_id := f_report_id s;
  fp_probe_cc := f_probe_cc s;
  fp_probe_asn := f_probe_asn s;
  fp_test_name := f_test_name s;
  fp_input := coalesce (f_input s) (Some INULL)
|}.

(** A row of the outer query, after the projection [merger]. *)
Record merged_row := {
  row_test_start_time : option Z;
  row_measurement_start_time : option Z;
  row_measurement_id : option string;
  row_m_report_no : Z;
  row_anomaly : option bool;
  row_confirmed : option bool;
  row_failure : option bool;
  row_scores : string;
  row_exc : option string;
  row_residual_no : Z;
  row_report_id : option string;
  row_probe_cc : option string;
  row_probe_asn : option Z;
  row_test_name : option string;
  row_input : option string
}.

(** A row of the FULL OUTER JOIN: either side may be missing (all NULL). *)
Definition joined_row : Type := option fp_row * option mr_row.

(** [fp.colname] and [mr.colname] on a joined row. *)
Definition fp_col {A} (c : fp_row -> option A) (j : joined_row) : option A :=
  j.1 ≫= c.
Definition mr_col {A} (c : mr_row -> option A) (j : joined_row) : option A :=
  j.2 ≫= c.

(** [coal(colname)]: prefer the fastpath column. *)
Definition coal {A} (fc : fp_row -> option A) (mc : mr_row -> option A)
    (j : joined_row) : option A :=
  coalesce (fp_col fc j) (mr_col mc j).

(** Merge data from mr_table and fastpath: most of the time the fastpath
    value is preferred, using [coal]; for measurement_id, mr_table is. *)
Definition merger (j : joined_row) : merged_row := {|
  row_test_start_time := coal fp_test_start_time mr_test_start_time j;
  row_measurement_start_time :=
    coal fp_measurement_start_time mr_measurement_start_time j;
  row_measurement_id :=
    coalesce (mr_col mr_measurement_id j) (fp_col fp_measurement_id j);
  row_m_report_no := default 0 (mr_col mr_m_report_no j);
  row_anomaly := coal fp_anomaly mr_anomaly j;
  row_confirmed := coal fp_confirmed mr_confirmed j;
  row_failure := coal fp_failure mr_failure j;
  row_scores := default "{}" (fp_col fp_scores j);
  row_exc := mr_col mr_exc j;
  row_residual_no := default 0 (mr_col mr_residual_no j);
  row_report_id := coal fp_report_id mr_report_id j;
  row_probe_cc := coal fp_probe_cc mr_probe_cc j;
  row_probe_asn := coal fp_probe_asn mr_probe_asn j;
  row_test_name := coal fp_test_name mr_test_name j;
  row_input := coal fp_input mr_input j
|}.

(** The ON clause: fp.input = mr.input AND fp.report_id = mr.report_id. *)
Definition join_on (f : fp_row) (m : mr_row) : bool :=
  sql_eq (fp_input f) (mr_input m) && sql_eq (fp_report_id f) (mr_report_id m).

(** FULL OUTER JOIN of the two subqueries: every matching pair, then every
    fastpath row without a match, padded with NULLs, and every canonical row
    without a match, padded with NULLs. *)
Definition full_outer_join (fp : list fp_row) (mr : list mr_row)
    : list joined_row :=
  flat_map (fun f =>
    match List.filter (join_on f) mr with
    | [] => [(Some f, None)]
    | ms => map (fun m => (Some f, Some m)) ms
    end) fp
  ++ map (fun m => (None, Some m))
       (List.filter (fun m => negb (existsb (fun f => join_on f m) fp)) mr).

(** ** Collaborators *)

(** The FROM clause assembled with [sql.table], [join] and [outerjoin]. *)
Inductive table_expr :=
| Table (name : string)
| Join (l : table_expr) (r : string) (onclause : string)
| OuterJoin (l : table_expr) (r : string) (onclause : string).

(** Values bound to the named parameters of a query. *)
Inductive param :=
| QTime (t : Z)
| QStr (s : string)
| QInt (z : Z).

(** The library functions the module calls.  [json] is the type of decoded
    JSON documents; a decoder or parser that raises returns [None]. *)
Class Libs := {
  json : Type;
  json_eq_dec :: EqDecision json;
  json_loads : string -> option json;
  urljoin : string -> string -> string;
  urlencode : list (string * string) -> string;
  parse_date : string -> option Z;
  lz4framed_decompress : list byte -> option (list byte)
}.

(** The row [get_measurement] selects for one msm_no. *)
Record msmt_row := {
  report_no : Z;
  frame_off : Z;
  frame_size : Z;
  intra_off : Z;
  intra_size : Z;
  textname : string;
  autoclaved_no : Z;
  autoclaved_filename : string
}.

(** What [requests.get] returns. *)
Record http_response := {
  status_code : Z;
  content : list byte
}.

(** What [conn.getresponse()] returns; reading the body may raise. *)
Record fastpath_response := {
  status : Z;
  read : result (list byte)
}.

(** The application and the world around one request: configuration, the
    two stores behind [db_session], the SQL engine's ORDER BY on each kind
    of row, and the two remote services.  [canonical_select] and
    [fastpath_select] give the rows of a FROM clause that satisfy the WHERE
    clauses under the bound parameters; [execute_fault] is the exception the
    engine raises while running the listing query, if any. *)
Class App := {
  BASE_URL : string;
  AUTOCLAVED_BASE_URL : string;
  REQID_HDR : string;
  request_id : string;
  canonical_select :
    table_expr -> list string -> gmap string param -> list mr_source;
  fastpath_select :
    table_expr -> list string -> gmap string param -> list fp_source;
  order_mr : string -> list mr_row -> list mr_row;
  order_fp : string -> list fp_row -> list fp_row;
  order_merged : string -> list merged_row -> list merged_row;
  execute_fault : option exn;
  fetch_msmt : Z -> result (option msmt_row);
  requests_get : string -> list (string * string) -> result http_response;
  fastpath_getresponse : string -> result fastpath_response;
  time_before : Z;
  time_after : Z
}.

(** The Flask request: the User-Agent header and the query string. *)
Record request := {
  user_agent : option string;
  args : list (string * string)
}.

(** [request.args.get(k)]: the first value of [k]. *)
Fixpoint args_get (k : string) (a : list (string * string)) : option string :=
  match a with
  | [] => None
  | (k', v) :: a' => if String.eqb k' k then Some v else args_get k a'
  end.

(** [d[k] = v] on an insertion-ordered dict. *)
Fixpoint dict_set (k v : string) (d : list (string * string))
    : list (string * string) :=
  match d with
  | [] => [(k, v)]
  | (k', v') :: d' =>
      if String.eqb k' k then (k, v) :: d' else (k', v') :: dict_set k v d'
  end.

(** [request.args.to_dict()]: the first value of every key, in order. *)
Definition to_dict (a : list (string * string)) : list (string * string) :=
  fold_left (fun d kv =>
    match args_get (fst kv) d with
    | Some _ => d
    | None => (d ++ [kv])%list
    end) a [].

(** The arguments of [list_measurements]. *)
Record params := {
  p_report_id : option string;
  p_probe_asn : option string;
  p_probe_cc : option string;
  p_test_name : option string;
  p_since : option string;
  p_until : option string;
  p_since_index : option string;
  p_order_by : option string;
  p_order : string;
  p_offset : Z;
  p_limit : Z;
  p_failure : option (list string);
  p_anomaly : option (list string);
  p_confirmed : option (list string);
  p_category_code : option string
}.

(** Truth value of an optional string and of an optional int. *)
Definition truthy (o : option string) : bool :=
  match o with
  | Some s => negb (String.eqb s "")
  | None => false
  end.

Definition truthy_int (o : option Z) : bool :=
  match o with
  | Some z => negb (z =? 0)
  | None => false
  end.

(** ** Filter normalisation *)

(** The probe_asn filter: strip "AS", then [int()]. *)
Definition parse_probe_asn (probe_asn : option string) : result (option Z) :=
  match probe_asn with
  | None => Ok None
  | Some s =>
      let s := if startswith s "AS" then str_drop 2 s else s in
      n ← py_int s; Ok (Some n)
  end.

(** A boolean filter given as a list of literals: the full set of literals
    is the same as no filter; otherwise the filter is whether the set is
    exactly ["true"]. *)
Definition tristate (v : option (list string)) : option bool :=
  match v with
  | None => None
  | Some l =>
      if decide (list_to_set l =@{gset string} list_to_set ["true"; "false"])
      then None
      else Some (bool_decide
                   (list_to_set l =@{gset string} list_to_set ["true"]))
  end.

(** [since] and [until]: a parse failure is a BadRequest. *)
Definition parse_bound `{Libs} (name : string) (v : option string)
    : result (option Z) :=
  match v with
  | None => Ok None
  | Some s =>
      match parse_date s with
      | Some t => Ok (Some t)
      | None => Raise (BadRequest ("Invalid " +:+ name))
      end
  end.

Definition check_order (order : string) : result unit :=
  let o := lower order in
  if String.eqb o "asc" || String.eqb o "desc" then Ok ()
  else Raise (BadRequest "Invalid order").

(** The filters after normalisation. *)
Record filters := {
  report_id : option string;
  probe_asn : option Z;
  probe_cc : option string;
  test_name : option string;
  since : option Z;
  until : option Z;
  failure : option bool;
  anomaly : option bool;
  confirmed : option bool;
  input_ : option string;
  domain : option string;
  category_code : option string
}.

(** "Prepare query parameters", in the order of the source. *)
Definition normalise `{Libs} (req : request) (p : params) : result filters :=
  asn ← parse_probe_asn (p_probe_asn p);
  let failure := tristate (p_failure p) in
  let anomaly := tristate (p_anomaly p) in
  let confirmed := tristate (p_confirmed p) in
  since ← parse_bound "since" (p_since p);
  until ← parse_bound "until" (p_until p);
  _ ← check_order (p_order p);
  Ok {| report_id := p_report_id p;
        probe_asn := asn;
        probe_cc := p_probe_cc p;
        test_name := p_test_name p;
        since := since;
        until := until;
        failure := failure;
        anomaly := anomaly;
        confirmed := confirmed;
        input_ := args_get "input" (args req);
        domain := args_get "domain" (args req);
        category_code := p_category_code p |}.

(** ** The two query plans *)

(** The state the source accumulates while it assembles the two SELECTs. *)
Record plan := {
  mrwhere : list string;
  fpwhere : list string;
  query_params : gmap string param;
  mr_table : table_expr;
  fpq_table : table_expr
}.

(** [mrwhere.append(sql.text(mr)); fpwhere.append(sql.text(fp))] *)
Definition add_where (mr fp : string) (b : plan) : plan :=
  {| mrwhere := (mrwhere b ++ [mr])%list;
     fpwhere := (fpwhere b ++ [fp])%list;
     query_params := query_params b;
     mr_table := mr_table b;
     fpq_table := fpq_table b |}.

(** [query_params[k] = v] *)
Definition set_param (k : string) (v : param) (b : plan) : plan :=
  {| mrwhere := mrwhere b;
     fpwhere := fpwhere b;
     query_params := <[k := v]> (query_params b);
     mr_table := mr_table b;
     fpq_table := fpq_table b |}.

(** [mr_table = mr_table.join(...)] and [fpq_table = fpq_table.join(...)] *)
Definition join_tables (f : table_expr -> table_expr)
    (g : table_expr -> table_expr) (b : plan) : plan :=
  {| mrwhere := mrwhere b;
     fpwhere := fpwhere b;
     query_params := query_params b;
     mr_table := f (mr_table b);
     fpq_table := g (fpq_table b) |}.

Definition when (c : bool) (f : plan -> plan) (b : plan) : plan :=
  if c then f b else b.

(** The clauses of a flag filter: IS TRUE, its negation, or nothing. *)
Definition flag_where (flag : option bool) (mr_t fp_t mr_f fp_f : string)
    (b : plan) : plan :=
  match flag with
  | Some true => add_where mr_t fp_t b
  | Some false => add_where mr_f fp_f b
  | None => b
  end.

Definition with_param {A} (o : option A) (k : string) (inj : A -> param)
    (mr fp : string) (b : plan) : plan :=
  match o with
  | Some v => add_where mr fp (set_param k (inj v) b)
  | None => b
  end.

Definition with_truthy (o : option string) (k : string) (mr fp : string)
    (b : plan) : plan :=
  if truthy o then with_param o k QStr mr fp b else b.

(** "Populate WHERE clauses and query_params dict", then the joins with
    domain_input and citizenlab. *)
Definition build_plan (f : filters) : plan :=
  let b := {| mrwhere := []; fpwhere := []; query_params := ∅;
              mr_table := Join (Table "measurement") "report"
                            "measurement.report_no = report.report_no";
              fpq_table := Table "fastpath" |} in
  let b := with_param (since f) "since" QTime
             "measurement.measurement_start_time > :since"
             "measurement_start_time > :since" b in
  let b := with_param (until f) "until" QTime
             "measurement.measurement_start_time <= :until"
             "measurement_start_time <= :until" b in
  let b := with_truthy (report_id f) "report_id"
             "report.report_id = :report_id" "report_id = :report_id" b in
  let b := with_truthy (probe_cc f) "probe_cc"
             "report.probe_cc = :probe_cc" "probe_cc = :probe_cc" b in
  let b := with_param (probe_asn f) "probe_asn" QInt
             "report.probe_asn = :probe_asn" "probe_asn = :probe_asn" b in
  let b := with_param (test_name f) "test_name" QStr
             "report.test_name = :test_name" "test_name = :test_name" b in
  let b := flag_where (anomaly f)
             "measurement.anomaly IS TRUE" "fastpath.anomaly IS TRUE"
             "measurement.anomaly IS NOT TRUE" "fastpath.anomaly IS NOT TRUE"
             b in
  let b := flag_where (confirmed f)
             "measurement.confirmed IS TRUE" "fastpath.confirmed IS TRUE"
             "measurement.confirmed IS NOT TRUE"
             "fastpath.confirmed IS NOT TRUE" b in
  let b := flag_where (failure f)
             "measurement.exc IS NOT NULL" "fastpath.msm_failure IS TRUE"
             "measurement.exc IS NULL" "fastpath.msm_failure IS NOT TRUE"
             b in
  if truthy (input_ f) || truthy (domain f) || truthy (category_code f) then
    let b := join_tables
               (fun t => Join t "domain_input"
                           "domain_input.input_no = measurement.input_no")
               (fun t => Join t "domain_input"
                           "domain_input.input = fastpath.input") b in
    if truthy (input_ f) then
      with_param (input_ f) "input" QStr
        "domain_input.input = :input" "domain_input.input = :input" b
    else
      let b := with_truthy (domain f) "domain"
                 "domain_input.domain = :domain"
                 "domain_input.domain = :domain" b in
      when (truthy (category_code f))
        (fun b =>
           let b := with_param (category_code f) "category_code" QStr
                      "citizenlab.category_code = :category_code"
                      "citizenlab.category_code = :category_code"
                      (join_tables
                         (fun t => Join t "citizenlab"
                                     "citizenlab.url = domain_input.input")
                         (fun t => Join t "citizenlab"
                                     "citizenlab.url = domain_input.input")
                         b) in
           b) b
  else
    join_tables
      (fun t => OuterJoin t "domain_input"
                  "domain_input.input_no = measurement.input_no")
      (fun t => t) b.

(** The ordering column when the caller gives none. *)
Definition infer_order_by (order_by : option string) (f : filters) : string :=
  match order_by with
  | Some o => o
  | None =>
      if truthy (probe_cc f) || truthy_int (probe_asn f)
         || truthy (test_name f)
      then "test_start_time"
      else if from_option id false (anomaly f)
              || from_option id false (confirmed f)
              || from_option id false (failure f)
              || truthy (input_ f) || truthy (domain f)
              || truthy (category_code f)
      then "measurement_start_time"
      else "measurement_start_time"
  end.

(** ** Running the listing query *)

Section Listing.
Context `{L : Libs} `{W : App}.

Local Abbreviation value := (pyval json).

(** [.limit(n)] and [.offset(n)] on rows already ordered. *)
Definition sql_limit {A} (n : Z) (l : list A) : list A := take (Z.to_nat n) l.
Definition sql_offset {A} (n : Z) (l : list A) : list A := drop (Z.to_nat n) l.

(** The text of ORDER BY: the column and the direction. *)
Definition fob (order_by order : string) : string :=
  order_by +:+ " " +:+ order.

(** The two subqueries, each ordered and limited to offset + limit rows. *)
Definition mr_query (b : plan) (ob : string) (offset limit : Z)
    : list mr_row :=
  sql_limit (offset + limit)
    (order_mr ob
       (map cols (canonical_select (mr_table b) (mrwhere b) (query_params b)))).

Definition fp_query (b : plan) (ob : string) (offset limit : Z)
    : list fp_row :=
  sql_limit (offset + limit)
    (order_fp ob
       (map fpcols
          (fastpath_select (fpq_table b) (fpwhere b) (query_params b)))).

(** The rows of the FULL OUTER JOIN of the two subqueries. *)
Definition joined (b : plan) (ob : string) (offset limit : Z)
    : list joined_row :=
  full_outer_join (fp_query b ob offset limit) (mr_query b ob offset limit).

(** The outer query: merge the columns, order, skip [offset] rows and keep
    [limit] rows. *)
Definition outer_query (b : plan) (ob : string) (offset limit : Z)
    : list merged_row :=
  sql_limit limit
    (sql_offset offset (order_merged ob (map merger (joined b ob offset limit)))).

(** [current_app.db_session.execute(query, query_params)]: the engine
    raises its fault if it has one, and rejects a negative LIMIT or OFFSET. *)
Definition execute (b : plan) (ob : string) (offset limit : Z)
    : result (list merged_row) :=
  match execute_fault with
  | Some e => Raise e
  | None =>
      if (offset <? 0) || (limit <? 0) then Raise (SQLAlchemyError "DataError")
      else Ok (outer_query b ob offset limit)
  end.

Definition of_str (o : option string) : value :=
  match o with Some s => PStr s | None => PNone end.
Definition of_bool (o : option bool) : value :=
  match o with Some b => PBool b | None => PNone end.
Definition of_time (o : option Z) : value :=
  match o with Some t => PTime t | None => PNone end.

(** The dict appended to [tmpresults] for one row. *)
Definition row_to_result (row : merged_row) : result (gmap string value) :=
  let url := urljoin BASE_URL
               ("/api/v1/measurement/"
                +:+ format_opt_str (row_measurement_id row)) in
  match json_loads (row_scores row) with
  | None => Raise JSONDecodeError
  | Some scores =>
      Ok (<["measurement_url" := PStr url]>
         (<["measurement_id" := of_str (row_measurement_id row)]>
         (<["report_id" := of_str (row_report_id row)]>
         (<["probe_cc" := of_str (row_probe_cc row)]>
         (<["probe_asn" := PStr ("AS" +:+ format_opt_Z (row_probe_asn row))]>
         (<["test_name" := of_str (row_test_name row)]>
         (<["measurement_start_time" :=
              of_time (row_measurement_start_time row)]>
         (<["input" := of_str (row_input row)]>
         (<["anomaly" := of_bool (row_anomaly row)]>
         (<["confirmed" := of_bool (row_confirmed row)]>
         (<["failure" := of_bool (row_failure row)]>
         (<["scores" := PJson scores]> ∅))))))))))))
  end.

(** [except OperationalError as exc]: a canceled query becomes abort(504),
    any other operational error is raised again; other exceptions are not
    caught. *)
Definition except_OperationalError {A} (body : result A) : result A :=
  match body with
  | Raise (OperationalError QueryCanceledError) => Raise (abort 504)
  | Raise (OperationalError orig) => Raise (OperationalError orig)
  | r => r
  end.

(** The rows of the joined stream as result dicts, in the order returned. *)
Definition tmpresults (b : plan) (ob : string) (offset limit : Z)
    : result (list (gmap string value)) :=
  except_OperationalError
    (q ← execute b ob offset limit; for_each row_to_result q).

(** Trim list_measurements() outputs that share the same report_id/input:
    the key of a result, and the loop that fills [resultsmap], an
    insertion-ordered dict, with the first result of every key. *)
Definition result_key (r : gmap string value) : result (value * value) :=
  match r !! "report_id" with
  | None => Raise (KeyError "report_id")
  | Some a =>
      match r !! "input" with
      | None => Raise (KeyError "input")
      | Some b => Ok (a, b)
      end
  end.

Fixpoint merge_loop (tmp : list (gmap string value))
    (resultsmap : list ((value * value) * gmap string value))
    : result (list ((value * value) * gmap string value)) :=
  match tmp with
  | [] => Ok resultsmap
  | r :: tmp' =>
      k ← result_key r;
      if decide (k ∈ resultsmap.*1) then merge_loop tmp' resultsmap
      else merge_loop tmp' (resultsmap ++ [(k, r)])%list
  end.

Definition _merge_results (tmp : list (gmap string value))
    : result (list (gmap string value)) :=
  resultsmap ← merge_loop tmp []; Ok (resultsmap.*2).

(** Replace the special value INULL for "input" with None. *)
Definition restore_inull (r : gmap string value)
    : result (gmap string value) :=
  match r !! "input" with
  | None => Raise (KeyError "input")
  | Some v =>
      if decide (v = PStr INULL) then Ok (<["input" := PNone]> r) else Ok r
  end.

(** [math.ceil(a / b)] on ints.  The quotient is a float in the source; it
    rounds to the exact ceiling as long as the operands stay below 2^53. *)
Definition math_ceil_div (a b : Z) : result Z :=
  if b =? 0 then Raise ZeroDivisionError else Ok (- ((- a) / b)).

(** The body of [jsonify]: the metadata and the results. *)
Record response := {
  metadata : gmap string value;
  results : list (gmap string value)
}.

(** The link to the next page: the request's arguments with offset and
    limit replaced. *)
Definition next_page_url (req : request) (offset limit : Z) : string :=
  let next_args := to_dict (args req) in
  let next_args := dict_set "offset" (str_of_Z (offset + limit)) next_args in
  let next_args := dict_set "limit" (str_of_Z limit) next_args in
  urljoin BASE_URL ("/api/v1/measurements?" +:+ urlencode next_args).

(** The pagination metadata and the page. *)
Definition paginate (req : request) (offset limit : Z)
    (res : list (gmap string value)) : result response :=
  c ← math_ceil_div offset limit;
  let current_page := c + 1 in
  let n := Z.of_nat (length res) in
  '(count, pages, next_url) ←
    (if n <? limit then
       let count := offset + n in
       pages ← math_ceil_div count limit;
       Ok (count, pages, PNone)
     else
       Ok (-1, -1, PStr (next_page_url req offset limit)));
  let query_time := time_after - time_before in
  Ok {| metadata :=
          <["offset" := PInt offset]>
          (<["limit" := PInt limit]>
          (<["count" := PInt count]>
          (<["pages" := PInt pages]>
          (<["current_page" := PInt current_page]>
          (<["next_url" := next_url]>
          (<["query_time" := PSeconds query_time]> ∅))))));
        results := py_slice_to res limit |}.

(** Workaround for https://github.com/ooni/probe/issues/1034 *)
Definition bug_probe1034_response : response :=
  {| metadata :=
       <["count" := PInt 1]>
       (<["current_page" := PInt 1]>
       (<["limit" := PInt 100]>
       (<["next_url" := PNone]>
       (<["offset" := PInt 0]>
       (<["pages" := PInt 1]>
       (<["query_time" := PSeconds 1000]> ∅))))));
     results := [ <["measurement_url" := PStr ""]> ∅ ] |}.

(** Search for measurements using only the database. Provide pagination. *)
Definition list_measurements (req : request) (p : params) : result response :=
  match user_agent req with
  | None =>
      Raise (AttributeError
               "'NoneType' object has no attribute 'startswith'")
  | Some ua =>
      if startswith ua "okhttp" then Ok bug_probe1034_response
      else
        f ← normalise req p;
        let b := build_plan f in
        let order_by := infer_order_by (p_order_by p) f in
        let ob := fob order_by (p_order p) in
        tmp ← tmpresults b ob (p_offset p) (p_limit p);
        res ← _merge_results tmp;
        res ← for_each restore_inull res;
        paginate req (p_offset p) (p_limit p) res
  end.

(** ** Payload retrieval *)

(** The response built with [make_response] and [headers.set]: the body and
    the headers, each with its value and its options. *)
Record flask_response := {
  data : list byte;
  headers : list (string * string * list (string * string))
}.

(** Get one measurement from the fastpath table by measurement_id, fetching
    the file from the fastpath host.  The request and [getresponse] come
    before the [try]; the status check, the read and the decompression are
    inside it. *)
Definition get_one_fastpath_measurement (measurement_id : string)
    (download : option string) : result flask_response :=
  let tid := str_drop (String.length FASTPATH_MSM_ID_PREFIX) measurement_id in
  let path := "/measurements/" +:+ tid +:+ ".json.lz4" in
  r ← fastpath_getresponse path;
  except_Exception
    (if status r =? 200 then
       blob ← read r;
       match lz4framed_decompress blob with
       | None => Raise Lz4FramedError
       | Some blob =>
           Ok {| data := blob;
                 headers := [("Content-Type", "application/json", [])] |}
       end
     else Raise AssertionError)
    (BadRequest "No measurement found").

(** The longest prefix of digits, and what follows it. *)
Fixpoint span_digits (s : string) : string * string :=
  match s with
  | EmptyString => (EmptyString, EmptyString)
  | String c s' =>
      if is_digit c then
        let '(d, r) := span_digits s' in (String c d, r)
      else (EmptyString, s)
  end.

(** [RE_MSM_ID.match(s)], giving group 1: the prefix, a dash, one or more
    digits, then the end of the string or a newline just before it. *)
Definition RE_MSM_ID_match (s : string) : option string :=
  let prefix := MSM_ID_PREFIX +:+ "-" in
  if startswith s prefix then
    let '(d, r) := span_digits (str_drop (String.length prefix) s) in
    if String.eqb d "" then None
    else if String.eqb r "" || String.eqb r (String "010" EmptyString)
    then Some d
    else None
  else None.

(** [r.raise_for_status()] *)
Definition raise_for_status (r : http_response) : result unit :=
  if (400 <=? status_code r) && (status_code r <? 600)
  then Raise (RequestsHTTPError (status_code r))
  else Ok ().

Definition len {A} (l : list A) : Z := Z.of_nat (length l).

(** Get one measurement by measurement_id, fetching the file from S3 or the
    fastpath host as needed. *)
Definition get_measurement (measurement_id : string)
    (download : option string) : result flask_response :=
  if startswith measurement_id FASTPATH_MSM_ID_PREFIX then
    get_one_fastpath_measurement measurement_id download
  else
    match RE_MSM_ID_match measurement_id with
    | None => Raise (BadRequest "Invalid measurement_id")
    | Some g =>
        msm_no ← py_int g;
        q ← fetch_msmt msm_no;
        match q with
        | None => Raise (abort 404)
        | Some msmt =>
            let range_header :=
              "bytes=" +:+ str_of_Z (frame_off msmt) +:+ "-"
              +:+ str_of_Z (frame_off msmt + frame_size msmt - 1) in
            let filename := autoclaved_filename msmt in
            r ← requests_get (urljoin AUTOCLAVED_BASE_URL filename)
                  [("Range", range_header); (REQID_HDR, request_id)];
            _ ← raise_for_status r;
            let blob := content r in
            if negb (len blob =? frame_size msmt) then
              Raise (RuntimeError "Failed to fetch LZ4 frame"
                       [AInt (len blob); AInt (frame_size msmt)])
            else
              match lz4framed_decompress blob with
              | None => Raise Lz4FramedError
              | Some frame =>
                  let blob :=
                    py_slice frame (intra_off msmt)
                      (intra_off msmt + intra_size msmt) in
                  if negb (len blob =? intra_size msmt)
                     || negb (bool_decide (py_slice_to blob 1 = ["{"%byte]))
                     || negb (bool_decide
                                (py_slice_from blob (-1) = ["}"%byte]))
                  then
                    Raise (RuntimeError
                             "Failed to decompress LZ4 frame to measurement.json"
                             [AInt (len blob); AInt (intra_size msmt);
                              ABytes (py_slice_to blob 1);
                              ABytes (py_slice_from blob (-1))])
                  else
                    let filename :=
                      "ooni-msmt-" +:+ measurement_id +:+ "-"
                      +:+ replace_char "/" "-" (textname msmt) in
                    let hdrs := [("Content-Type", "application/json", [])] in
                    Ok {| data := blob;
                          headers :=
                            match download with
                            | None => hdrs
                            | Some _ =>
                                (hdrs ++ [("Content-Disposition", "attachment",
                                           [("filename", filename)])])%list
                            end |}
              end
        end
    end.

(** ** Vocabulary of the properties *)

(** ORDER BY returns the rows it is given, in some order. *)
Class SqlOrder : Prop := {
  order_mr_perm : forall ob l, order_mr ob l ≡ₚ l;
  order_fp_perm : forall ob l, order_fp ob l ≡ₚ l;
  order_merged_perm : forall ob l, order_merged ob l ≡ₚ l
}.

(** The key two results share: report_id and input. *)
Definition key_of (r : gmap string value) : option value * option value :=
  (r !! "report_id", r !! "input").

(** [r] is the first element of [tmp] with key [k]. *)
Definition first_with_key (tmp : list (gmap string value)) (k : value * value)
    (r : gmap string value) : Prop :=
  result_key r = Ok k /\
  exists l1 l2, tmp = (l1 ++ r :: l2)%list /\
    forall x, x ∈ l1 -> result_key x <> Ok k.

(** [r] is [d] with the sentinel input replaced by None. *)
Definition restored (d r : gmap string value) : Prop :=
  (d !! "input" = Some (PStr INULL) /\ r = <["input" := PNone]> d)
  \/ (d !! "input" <> Some (PStr INULL) /\ r = d).

(** The ceiling of a quotient, as [math_ceil_div] computes it. *)
Definition ceil (a b : Z) : Z := - ((- a) / b).

(** The arguments of the next link: those of the request, with the new
    offset and the limit. *)
Definition next_args (req : request) (offset limit : Z)
    : list (string * string) :=
  dict_set "limit" (str_of_Z limit)
    (dict_set "offset" (str_of_Z (offset + limit)) (to_dict (args req))).

(** The key of a record after the sentinel has been replaced. *)
Definition out_key (k : value * value) : option value * option value :=
  (Some k.1, Some (if decide (k.2 = PStr INULL) then PNone else k.2)).

(** The column resolution policy for a record [r] built from a fastpath
    row [f] and a canonical row [m] that joined: scores and the three flags
    are the fastpath ones when the fastpath row has them; the measurement
    identifier (and the URL made from it) is the canonical one when both
    rows have one; every other field is the fastpath value when present,
    else the canonical value, the sentinel input being shown as None. *)
Definition merge_policy (f : fp_row) (m : mr_row) (r : gmap string value)
    : Prop :=
  (forall s, fp_scores f = Some s ->
     exists js, json_loads s = Some js /\ r !! "scores" = Some (PJson js)) /\
  (forall b, fp_anomaly f = Some b -> r !! "anomaly" = Some (PBool b)) /\
  (forall b, fp_confirmed f = Some b -> r !! "confirmed" = Some (PBool b)) /\
  (forall b, fp_failure f = Some b -> r !! "failure" = Some (PBool b)) /\
  (forall i i', mr_measurement_id m = Some i -> fp_measurement_id f = Some i' ->
     r !! "measurement_id" = Some (PStr i) /\
     r !! "measurement_url" =
       Some (PStr (urljoin BASE_URL ("/api/v1/measurement/" +:+ i)))) /\
  r !! "report_id" = Some (of_str (coalesce (fp_report_id f) (mr_report_id m)))
  /\ r !! "probe_cc" = Some (of_str (coalesce (fp_probe_cc f) (mr_probe_cc m)))
  /\ r !! "test_name"
     = Some (of_str (coalesce (fp_test_name f) (mr_test_name m)))
  /\ r !! "measurement_start_time"
     = Some (of_time (coalesce (fp_measurement_start_time f)
                               (mr_measurement_start_time m)))
  /\ r !! "probe_asn"
     = Some (PStr ("AS" +:+ format_opt_Z
                              (coalesce (fp_probe_asn f) (mr_probe_asn m))))
  /\ r !! "input"
     = Some (let c := coalesce (fp_input f) (mr_input m) in
             if decide (c = Some INULL) then PNone else of_str c).

End Listing.

(** ** Changing one argument of a call *)

Definition with_flags (failure anomaly confirmed : option (list string))
    (p : params) : params :=
  {| p_report_id := p_report_id p; p_probe_asn := p_probe_asn p;
     p_probe_cc := p_probe_cc p; p_test_name := p_test_name p;
     p_since := p_since p; p_until := p_until p;
     p_since_index := p_since_index p; p_order_by := p_order_by p;
     p_order := p_order p; p_offset := p_offset p; p_limit := p_limit p;
     p_failure := failure; p_anomaly := anomaly; p_confirmed := confirmed;
     p_category_code := p_category_code p |}.

Definition with_failure (v : option (list string)) (p : params) : params :=
  with_flags v (p_anomaly p) (p_confirmed p) p.
Definition with_anomaly (v : option (list string)) (p : params) : params :=
  with_flags (p_failure p) v (p_confirmed p) p.
Definition with_confirmed (v : option (list string)) (p : params) : params :=
  with_flags (p_failure p) (p_anomaly p) v p.

Definition with_probe_asn (v : option string) (p : params) : params :=
  {| p_report_id := p_report_id p; p_probe_asn := v;
     p_probe_cc := p_probe_cc p; p_test_name := p_test_name p;
     p_since := p_since p; p_until := p_until p;
     p_since_index := p_since_index p; p_order_by := p_order_by p;
     p_order := p_order p; p_offset := p_offset p; p_limit := p_limit p;
     p_failure := p_failure p; p_anomaly := p_anomaly p;
     p_confirmed := p_confirmed p; p_category_code := p_category_code p |}.

(** An error raised by the database layer. *)
Definition is_db_error (e : exn) : bool :=
  match e with
  | OperationalError _ | SQLAlchemyError _ => true
  | _ => false
  end.

(** The literals of a boolean filter. *)
Definition bool_literals (l : list string) : Prop :=
  forall s, s ∈ l -> s = "true" \/ s = "false".

(** ** A small world to run the functions on *)

Module Sample.

(** Decoded JSON is kept as its text; every text decodes except "oops". *)
#[export] Instance libs : Libs := {|
  json := string;
  json_loads s := if String.eqb s "oops" then None else Some s;
  urljoin base path := base +:+ path;
  urlencode a :=
    String.concat "&" (map (fun kv => fst kv +:+ "=" +:+ snd kv) a);
  parse_date s := match py_int s with Ok t => Some t | Raise _ => None end;
  lz4framed_decompress b := match b with [] => None | _ :: b' => Some b' end
|}.

Definition fp1 : fp_source := {|
  f_tid := Some "abc"; f_measurement_start_time := Some 30;
  f_anomaly := Some true; f_confirmed := None; f_msm_failure := Some false;
  f_scores := Some "{blocking: 1}"; f_report_id := Some "r1";
  f_probe_cc := Some "IT"; f_probe_asn := Some 12874;
  f_test_name := Some "web_connectivity"; f_input := Some "http://a/" |}.

Definition fp2 : fp_source := {|
  f_tid := Some "def"; f_measurement_start_time := Some 20;
  f_anomaly := None; f_confirmed := None; f_msm_failure := None;
  f_scores := None; f_report_id := Some "r2";
  f_probe_cc := Some "IT"; f_probe_asn := Some 12874;
  f_test_name := Some "ndt"; f_input := None |}.

Definition mr1 : mr_source := {|
  s_report_test_start_time := Some 29; s_measurement_start_time := Some 30;
  s_msm_no := Some 7; s_measurement_report_no := Some 1;
  s_anomaly := None; s_confirmed := None; s_exc := None;
  s_residual_no := Some 0; s_report_id := Some "r1";
  s_probe_cc := Some "IT"; s_probe_asn := Some 12874;
  s_test_name := Some "web_connectivity"; s_report_no := Some 1;
  s_domain_input_input := Some "http://a/" |}.

Definition mr3 : mr_source := {|
  s_report_test_start_time := Some 9; s_measurement_start_time := Some 10;
  s_msm_no := Some 8; s_measurement_report_no := Some 2;
  s_anomaly := Some true; s_confirmed := None; s_exc := Some "boom";
  s_residual_no := Some 0; s_report_id := Some "r3";
  s_probe_cc := Some "GR"; s_probe_asn := Some 1;
  s_test_name := Some "ndt"; s_report_no := Some 2;
  s_domain_input_input := None |}.

Definition found : msmt_row := {|
  report_no := 1; frame_off := 100; frame_size := 4; intra_off := 1;
  intra_size := 2; textname := "2020/a.json"; autoclaved_no := 5;
  autoclaved_filename := "2020/a.tar.lz4" |}.

(** Both stores hold the rows above, twice in the canonical store; ORDER BY
    leaves the rows as they are; the archive answers three bytes where
    four are expected; the fastpath host answers 404. *)
Definition world (fault : option exn) : App := {|
  BASE_URL := "https://api.ooni.io";
  AUTOCLAVED_BASE_URL := "http://datacollector.infra.ooni.io/ooni-public/autoclaved/";
  REQID_HDR := "X-Request-ID";
  request_id := "req-1";
  canonical_select _ _ _ := [mr1; mr3; mr1];
  fastpath_select _ _ _ := [fp1; fp2];
  order_mr _ l := l;
  order_fp _ l := l;
  order_merged _ l := l;
  execute_fault := fault;
  fetch_msmt n := Ok (if n =? 7 then Some found else None);
  requests_get _ _ := Ok {| status_code := 206;
                            content := ["a"%byte; "{"%byte; "}"%byte] |};
  fastpath_getresponse path :=
    if String.eqb path "/measurements/down.json.lz4"
    then Raise (ConnectionError "Connection refused")
    else Ok {| status := 404; read := Ok [] |};
  time_before := 0;
  time_after := 2500
|}.

Definition no_filters (limit : Z) : params := {|
  p_report_id := None; p_probe_asn := None; p_probe_cc := None;
  p_test_name := None; p_since := None; p_until := None;
  p_since_index := None; p_order_by := None; p_order := "desc";
  p_offset := 0; p_limit := limit; p_failure := None; p_anomaly := None;
  p_confirmed := None; p_category_code := None |}.

Definition browser : request :=
  {| user_agent := Some "Mozilla/5.0"; args := [("limit", "2")] |}.

Definition android : request :=
  {| user_agent := Some "okhttp/3.12.1"; args := [("limit", "1")] |}.

End Sample.

(** ** Listing report files *)

(** A row of the report table, restricted to the columns [list_files]
    selects. *)
Record report_row := {
  rp_textname : string;
  rp_test_start_time : option Z;
  rp_probe_cc : option string;
  rp_probe_asn : option Z;
  rp_report_no : Z;
  rp_test_name : option string
}.

(** What [list_files] needs beside the application: the constant
    REPORT_INDEX_OFFSET of measurements.config, the rows of the report table
    that satisfy a list of WHERE clauses, ORDER BY on these rows, and the
    exception the engine raises while running the query, if any. *)
Class Files := {
  REPORT_INDEX_OFFSET : Z;
  report_select : list string -> gmap string param -> list report_row;
  order_report : string -> list report_row -> list report_row;
  files_fault : option exn
}.

(** The arguments of [list_files]. *)
Record files_params := {
  lf_probe_asn : option string;
  lf_probe_cc : option string;
  lf_test_name : option string;
  lf_since : option string;
  lf_until : option string;
  lf_since_index : option string;
  lf_order_by : string;
  lf_order : string;
  lf_offset : Z;
  lf_limit : Z
}.

(** The WHERE clauses and bound parameters [list_files] accumulates. *)
Record files_plan := {
  fwhere : list string;
  fparams : gmap string param
}.

(** [where.append(sql.text(c)); query_params[k] = v] *)
Definition files_add (c k : string) (v : param) (b : files_plan)
    : files_plan :=
  {| fwhere := (fwhere b ++ [c])%list; fparams := <[k := v]> (fparams b) |}.

(** The clauses, each added when its value is true in Python's sense: a
    non-empty string, a non-zero int, any timestamp. *)
Definition files_plan_of (probe_cc : option string) (probe_asn : option Z)
    (test_name : option string) (since until : option Z)
    (since_index : option Z) (report_no : Z) : files_plan :=
  let b := {| fwhere := []; fparams := ∅ |} in
  let b := match probe_cc with
           | Some v =>
               if truthy probe_cc
               then files_add "probe_cc = :probe_cc" "probe_cc" (QStr v) b
               else b
           | None => b
           end in
  let b := match probe_asn with
           | Some n =>
               if truthy_int probe_asn
               then files_add "probe_asn = :probe_asn" "probe_asn" (QInt n) b
               else b
           | None => b
           end in
  let b := match test_name with
           | Some v =>
               if truthy test_name
               then files_add "test_name = :test_name" "test_name" (QStr v) b
               else b
           | None => b
           end in
  let b := match since with
           | Some t =>
               files_add "test_start_time > :since" "since" (QTime t) b
           | None => b
           end in
  let b := match until with
           | Some t =>
               files_add "test_start_time <= :until" "until" (QTime t) b
           | None => b
           end in
  if truthy_int since_index
  then files_add "report_no > :report_no" "report_no" (QInt report_no) b
  else b.

Section Files.
Context `{L : Libs} `{W : App} `{F : Files}.

Local Abbreviation value := (pyval json).

(** [since_index = int(since_index)] and
    [report_no = max(0, since_index - REPORT_INDEX_OFFSET)] *)
Definition parse_since_index (since_index : option string)
    : result (option Z * Z) :=
  match since_index with
  | None => Ok (None, 0)
  | Some s =>
      n ← py_int s; Ok (Some n, Z.max 0 (n - REPORT_INDEX_OFFSET))
  end.

(** [if order_by in ("index", "idx"): order_by = "report_no"] *)
Definition files_order_by (order_by : string) : string :=
  if String.eqb order_by "index" || String.eqb order_by "idx"
  then "report_no" else order_by.

(** The query of [list_files]: ordered, then OFFSET and LIMIT. *)
Definition files_execute (b : files_plan) (ob : string) (offset limit : Z)
    : result (list report_row) :=
  match files_fault with
  | Some e => Raise e
  | None =>
      if (offset <? 0) || (limit <? 0) then Raise (SQLAlchemyError "DataError")
      else Ok (sql_limit limit
                 (sql_offset offset
                    (order_report ob (report_select (fwhere b) (fparams b)))))
  end.

(** The dict appended to [results] for one row. *)
Definition file_result (row : report_row) : gmap string value :=
  <["download_url" :=
      PStr (urljoin BASE_URL ("/files/download/" +:+ rp_textname row))]>
  (<["probe_cc" := of_str (rp_probe_cc row)]>
  (<["probe_asn" := PStr ("AS" +:+ format_opt_Z (rp_probe_asn row))]>
  (<["test_name" := of_str (rp_test_name row)]>
  (<["index" := PInt (rp_report_no row + REPORT_INDEX_OFFSET)]>
  (<["test_start_time" := of_time (rp_test_start_time row)]> ∅))))).

(** The link to the next page of files. *)
Definition files_next_url (req : request) (offset limit : Z) : string :=
  urljoin BASE_URL
    ("/api/v1/files?" +:+ urlencode (next_args req offset limit)).

Definition list_files (req : request) (p : files_params) : result response :=
  probe_asn ← parse_probe_asn (lf_probe_asn p);
  since ← parse_bound "since" (lf_since p);
  until ← parse_bound "until" (lf_until p);
  '(since_index, report_no) ← parse_since_index (lf_since_index p);
  let order_by := files_order_by (lf_order_by p) in
  let b := files_plan_of (lf_probe_cc p) probe_asn (lf_test_name p)
             since until since_index report_no in
  let offset := lf_offset p in
  let limit := lf_limit p in
  c ← math_ceil_div offset limit;
  let current_page := c + 1 in
  q ← files_execute b (fob order_by (lf_order p)) offset limit;
  let res := map file_result q in
  let n := Z.of_nat (length res) in
  '(count, pages, next_url) ←
    (if n <? limit then
       let count := offset + n in
       pages ← math_ceil_div count limit;
       Ok (count, pages, PNone)
     else
       Ok (-1, -1, PStr (files_next_url req offset limit)));
  Ok {| metadata :=
          <["offset" := PInt offset]>
          (<["limit" := PInt limit]>
          (<["count" := PInt count]>
          (<["pages" := PInt pages]>
          (<["current_page" := PInt current_page]>
          (<["next_url" := next_url]> ∅)))));
        results := res |}.

End Files.

(** ** Aggregated counters *)

(** The exceptions [get_aggregated] catches and reports in its answer: those
    of the engine, [r[0]] on an empty list, [dict(None)], and the
    ValueError of a row with a field the header does not have. *)
Inductive caught :=
| StoreError (e : exn)
| IndexError
| TypeError
| FieldsError.

(** The SELECT that [get_aggregated] assembles. *)
Record agg_query := {
  aq_cols : list string;
  aq_table : table_expr;
  aq_where : list string;
  aq_params : gmap string param;
  aq_group_by : list string;
  aq_order_by : list string
}.

(** [sorted(keys)]: insertion into a list ordered by code points. *)
Fixpoint insert_sorted (k : string) (l : list string) : list string :=
  match l with
  | [] => [k]
  | x :: l' => if String.leb k x then k :: l else x :: insert_sorted k l'
  end.

Definition sorted (l : list string) : list string := foldr insert_sorted [] l.

(** The arguments of [get_aggregated]. *)
Record agg_params := {
  ag_axis_x : option string;
  ag_axis_y : option string;
  ag_category_code : option string;
  ag_domain : option string;
  ag_input : option string;
  ag_test_name : option string;
  ag_probe_asn : option string;
  ag_probe_cc : option string;
  ag_since : option string;
  ag_until : option string;
  ag_format : string
}.

(** [cols.append(column(axis))] and the join with citizenlab when the axis
    is category_code. *)
Definition add_axis (axis : option string) (q : agg_query) : agg_query :=
  match axis with
  | Some a =>
      if truthy axis then
        {| aq_cols := (aq_cols q ++ [a])%list;
           aq_table :=
             if String.eqb a "category_code"
             then Join (aq_table q) "citizenlab"
                    "citizenlab.url = counters.input"
             else aq_table q;
           aq_where := aq_where q;
           aq_params := aq_params q;
           aq_group_by := aq_group_by q;
           aq_order_by := aq_order_by q |}
      else q
  | None => q
  end.

(** [query.group_by(column(axis)).order_by(column(axis))] *)
Definition group_by_axis (axis : option string) (q : agg_query) : agg_query :=
  match axis with
  | Some a =>
      if truthy axis then
        {| aq_cols := aq_cols q; aq_table := aq_table q;
           aq_where := aq_where q; aq_params := aq_params q;
           aq_group_by := (aq_group_by q ++ [a])%list;
           aq_order_by := (aq_order_by q ++ [a])%list |}
      else q
  | None => q
  end.

(** A filter of the counters: a join, if any, and a clause with its
    parameter. *)
Definition agg_filter (join : option (string * string)) (c k : string)
    (v : param) (q : agg_query) : agg_query :=
  {| aq_cols := aq_cols q;
     aq_table := match join with
                 | Some (t, onclause) => Join (aq_table q) t onclause
                 | None => aq_table q
                 end;
     aq_where := (aq_where q ++ [c])%list;
     aq_params := <[k := v]> (aq_params q);
     aq_group_by := aq_group_by q;
     aq_order_by := aq_order_by q |}.

Definition agg_truthy (o : option string)
    (join : option (string * string)) (c k : string) (q : agg_query)
    : agg_query :=
  match o with
  | Some v => if truthy o then agg_filter join c k (QStr v) q else q
  | None => q
  end.

Section Aggregation.
Context `{L : Libs}.

Local Abbreviation value := (pyval json).

(** What [get_aggregated] needs: the rows the engine returns for a query,
    as dicts, or the exception it raises; the clock and the length of 72
    hours in the unit of the timestamps; the message of the ValueError of
    [parse_date] for a text it does not parse; and the line [csv.writer]
    writes for a row of values. *)
Class Counters := {
  counters_execute : agg_query -> result (list (gmap string value));
  datetime_now : Z;
  hours_72 : Z;
  parse_date_error : string -> string;
  csv_writerow : list value -> string
}.

Context `{C : Counters}.

(** The result of the query: one dict, or a list of dicts. *)
Inductive agg_result :=
| Row (d : gmap string value)
| Rows (l : list (gmap string value)).

(** The answers of [get_aggregated]: the CSV text, the JSON document with
    its cache lifetime, or the JSON document that reports an exception. *)
Inductive agg_response :=
| AggCsv (body : string)
| AggJson (dimension_count : Z) (r : agg_result) (max_age : option Z)
| AggError (e : caught).

Definition dict_keys (d : gmap string value) : list string :=
  (map_to_list d).*1.

(** [DictWriter.writerow]: a field outside the header is an error, a
    missing field is written as the empty string. *)
Definition dict_writerow (fieldnames : list string) (d : gmap string value)
    : caught + string :=
  if forallb (fun k => bool_decide (k ∈ fieldnames)) (dict_keys d)
  then inr (csv_writerow
              (map (fun k => default (PStr "") (d !! k)) fieldnames))
  else inl FieldsError.

(** [DictWriter.writeheader] *)
Definition dict_writeheader (fieldnames : list string) : string :=
  csv_writerow (map PStr fieldnames).

Fixpoint write_rows (fieldnames : list string)
    (rows : list (gmap string value)) : caught + string :=
  match rows with
  | [] => inr ""
  | d :: rows' =>
      match dict_writerow fieldnames d with
      | inl e => inl e
      | inr line =>
          match write_rows fieldnames rows' with
          | inl e => inl e
          | inr rest => inr (line +:+ rest)
          end
      end
  end.

(** Convert aggregation result dict/list to CSV. *)
Definition _convert_to_csv (r : agg_result) : caught + string :=
  match r with
  | Row d =>
      let fieldnames := sorted (dict_keys d) in
      match dict_writerow fieldnames d with
      | inl e => inl e
      | inr line => inr (dict_writeheader fieldnames +:+ line)
      end
  | Rows [] => inl IndexError
  | Rows ((d0 :: _) as l) =>
      let fieldnames := sorted (dict_keys d0) in
      match write_rows fieldnames l with
      | inl e => inl e
      | inr body => inr (dict_writeheader fieldnames +:+ body)
      end
  end.

(** [COALESCE(SUM({0}), 0) AS {0}] *)
Definition coalsum (name : string) : string :=
  "COALESCE(SUM(" +:+ name +:+ "), 0) AS " +:+ name.

(** [parse_date(s)] where nothing catches its ValueError. *)
Definition parse_date_or_raise (s : string) : result Z :=
  match parse_date s with
  | Some t => Ok t
  | None => Raise (ValueError (parse_date_error s))
  end.

(** The query, from the arguments after [cacheable] has been computed. *)
Definition agg_build (p : agg_params) : result agg_query :=
  let q := {| aq_cols := [coalsum "anomaly_count"; coalsum "confirmed_count";
                          coalsum "failure_count";
                          coalsum "measurement_count"];
              aq_table := Table "counters";
              aq_where := []; aq_params := ∅; aq_group_by := [];
              aq_order_by := [] |} in
  let q := agg_truthy (ag_domain p)
             (Some ("domain_input", "counters.input = domain_input.input"))
             "domain = :domain" "domain" q in
  let q := agg_truthy (ag_category_code p)
             (Some ("citizenlab", "citizenlab.url = counters.input"))
             "category_code = :category_code" "category_code" q in
  let q := agg_truthy (ag_probe_cc p) None
             "probe_cc = :probe_cc" "probe_cc" q in
  q ← match ag_probe_asn p with
      | None => Ok q
      | Some _ =>
          asn ← parse_probe_asn (ag_probe_asn p);
          Ok (agg_filter None "probe_asn = :probe_asn" "probe_asn"
                (QInt (default 0 asn)) q)
      end;
  q ← (if truthy (ag_since p) then
         t ← parse_date_or_raise (default "" (ag_since p));
         Ok (agg_filter None "measurement_start_day > :since" "since"
               (QTime t) q)
       else Ok q);
  q ← (if truthy (ag_until p) then
         t ← parse_date_or_raise (default "" (ag_until p));
         Ok (agg_filter None "measurement_start_day <= :until" "until"
               (QTime t) q)
       else Ok q);
  let q := add_axis (ag_axis_x p) q in
  let q := add_axis (ag_axis_y p) q in
  let q := group_by_axis (ag_axis_x p) q in
  let q := group_by_axis (ag_axis_y p) q in
  Ok q.

(** The body of the [try]: run the query, shape the result, answer. *)
Definition agg_answer (p : agg_params) (dimension_cnt : Z) (cacheable : bool)
    (q : agg_query) : caught + agg_response :=
  match counters_execute q with
  | Raise e => inl (StoreError e)
  | Ok rows =>
      let shaped :=
        if (dimension_cnt =? 2) || truthy (ag_axis_x p)
           || truthy (ag_axis_y p)
        then inr (Rows rows)
        else match rows with
             | [] => inl TypeError
             | d :: _ => inr (Row d)
             end in
      match shaped with
      | inl e => inl e
      | inr r =>
          if String.eqb (ag_format p) "CSV" then
            match _convert_to_csv r with
            | inl e => inl e
            | inr body => inr (AggCsv body)
            end
          else
            inr (AggJson dimension_cnt r
                   (if cacheable then Some (3600 * 24) else None))
      end
  end.

(** Aggregate counters data. *)
Definition get_aggregated (p : agg_params) : result agg_response :=
  let dimension_cnt :=
    (if truthy (ag_axis_x p) then 1 else 0)
    + (if truthy (ag_axis_y p) then 1 else 0) in
  cacheable ← (if truthy (ag_until p) then
                 t ← parse_date_or_raise (default "" (ag_until p));
                 Ok (t <? datetime_now - hours_72)
               else Ok false);
  q ← agg_build p;
  match agg_answer p dimension_cnt cacheable q with
  | inl e => Ok (AggError e)
  | inr resp => Ok resp
  end.

End Aggregation.

(** ** Application setup (measurements/app.py) *)

Module Setup.

(** The values of the configuration: strings, booleans, ints and None. *)
Inductive cfg :=
| CStr (s : string)
| CBool (b : bool)
| CInt (z : Z)
| CNone.

(** ["{}".format(v)] *)
Definition format_cfg (v : cfg) : string :=
  match v with
  | CStr s => s
  | CBool true => "True"
  | CBool false => "False"
  | CInt z => str_of_Z z
  | CNone => "None"
  end.

(** [app.config[k]], [app.config[k] = v] and [app.config.keys()] on an
    insertion-ordered dict. *)
Fixpoint cfg_get (k : string) (c : list (string * cfg)) : option cfg :=
  match c with
  | [] => None
  | (k', v) :: c' => if String.eqb k' k then Some v else cfg_get k c'
  end.

Fixpoint cfg_set (k : string) (v : cfg) (c : list (string * cfg))
    : list (string * cfg) :=
  match c with
  | [] => [(k, v)]
  | (k', v') :: c' =>
      if String.eqb k' k then (k, v) :: c' else (k', v') :: cfg_set k v c'
  end.

Definition cfg_keys (c : list (string * cfg)) : list string := map fst c.

(** [sub in s] on strings. *)
Fixpoint contains (sub s : string) : bool :=
  String.prefix sub s
  || match s with
     | EmptyString => false
     | String _ s' => contains sub s'
     end.

(** [v == name] for a configuration value and a string literal. *)
Definition cfg_is (v : cfg) (name : string) : bool :=
  match v with
  | CStr s => String.eqb s name
  | _ => false
  end.

Inductive level := DEBUG | WARNING.

(** What [init_app] raises: KeyError for a missing configuration key, and
    RuntimeError("Unexpected APP_ENV", env). *)
Inductive setup_error :=
| ConfigKeyError (key : string)
| UnexpectedAppEnv (env : cfg).

(** The state [init_app] leaves: the configuration, the handlers added to
    the logger, the level set on it, the Jinja reload flag, the calls to
    [app.logger.debug], what Sentry was set up with, and the extensions. *)
Record app := {
  config : list (string * cfg);
  stream_handlers : nat;
  logger_level : option level;
  jinja_auto_reload : bool;
  debug_calls : list string;
  sentry_dsn : option string;
  ignored_loggers : list string;
  misaka_fenced_code : bool;
  cors_resources : list (string * string)
}.

Definition SECRET_SUBSTRINGS : list string := ["_SECRET_"; "DATABASE_URL"].

(** Do not log, even in debug, anything containing the word "SECRET" or
    "DATABASE_URL". *)
Definition is_secret (key : string) : bool :=
  existsb (fun s => contains s key) SECRET_SUBSTRINGS.

(** [init_app(app, testmode)], from the configuration as loaded from
    measurements.config and the file named by MEASUREMENTS_CONFIG. *)
Definition init_app (loaded : list (string * cfg)) (testmode : bool)
    : setup_error + app :=
  let handlers := if testmode then 0%nat else 1%nat in
  match cfg_get "APP_ENV" loaded with
  | None => inl (ConfigKeyError "APP_ENV")
  | Some env =>
      let configured :=
        if cfg_is env "production" then
          inr (loaded, Some WARNING, false)
        else if cfg_is env "development" then
          inr (cfg_set "DEBUG" (CBool true)
                 (cfg_set "TEMPLATES_AUTO_RELOAD" (CBool true) loaded),
               Some DEBUG, true)
        else if negb (cfg_is env "testing" || cfg_is env "staging") then
          inl (UnexpectedAppEnv env)
        else inr (loaded, None, false) in
      match configured with
      | inl e => inl e
      | inr (conf, lvl, reload) =>
          let lines :=
            flat_map (fun key =>
              if is_secret key then []
              else [key +:+ ": "
                    +:+ from_option format_cfg "" (cfg_get key conf)])
              (cfg_keys conf) in
          let production := cfg_is env "production" in
          inr {| config := conf;
                 stream_handlers := handlers;
                 logger_level := lvl;
                 jinja_auto_reload := reload;
                 debug_calls := lines;
                 sentry_dsn :=
                   if production
                   then Some "https://dcb077b34ac140d58a7c37609cea0cf9@sentry.io/1367288"
                   else None;
                 ignored_loggers :=
                   if production then ["flask-limiter"] else [];
                 misaka_fenced_code := true;
                 cors_resources := [("/api/*", "*")] |}
      end
  end.

End Setup.

(** ** The other stages of a listing, for the properties *)

(** The filters without the domain and category_code ones. *)
Definition without_domain_category (f : filters) : filters :=
  {| report_id := report_id f; probe_asn := probe_asn f;
     probe_cc := probe_cc f; test_name := test_name f;
     since := since f; until := until f; failure := failure f;
     anomaly := anomaly f; confirmed := confirmed f; input_ := input_ f;
     domain := None; category_code := None |}.

(** The arguments of [list_files] with another probe_asn or since_index. *)
Definition files_with_probe_asn (v : option string) (p : files_params)
    : files_params :=
  {| lf_probe_asn := v; lf_probe_cc := lf_probe_cc p;
     lf_test_name := lf_test_name p; lf_since := lf_since p;
     lf_until := lf_until p; lf_since_index := lf_since_index p;
     lf_order_by := lf_order_by p; lf_order := lf_order p;
     lf_offset := lf_offset p; lf_limit := lf_limit p |}.

Definition files_with_since_index (v : option string) (p : files_params)
    : files_params :=
  {| lf_probe_asn := lf_probe_asn p; lf_probe_cc := lf_probe_cc p;
     lf_test_name := lf_test_name p; lf_since := lf_since p;
     lf_until := lf_until p; lf_since_index := v;
     lf_order_by := lf_order_by p; lf_order := lf_order p;
     lf_offset := lf_offset p; lf_limit := lf_limit p |}.

(** ** A world where retrieval succeeds *)

Module Healthy.

(** As [Sample.world], but the archive answers the four bytes of the frame
    and the fastpath host answers 200 for every path. *)
Definition world : App := {|
  BASE_URL := "https://api.ooni.io";
  AUTOCLAVED_BASE_URL := "http://datacollector.infra.ooni.io/ooni-public/autoclaved/";
  REQID_HDR := "X-Request-ID";
  request_id := "req-2";
  canonical_select _ _ _ := [Sample.mr1; Sample.mr3];
  fastpath_select _ _ _ := [Sample.fp1; Sample.fp2];
  order_mr _ l := l;
  order_fp _ l := l;
  order_merged _ l := l;
  execute_fault := None;
  fetch_msmt n := Ok (if n =? 7 then Some Sample.found else None);
  requests_get _ _ :=
    Ok {| status_code := 206;
          content := ["z"%byte; "a"%byte; "{"%byte; "}"%byte] |};
  fastpath_getresponse _ :=
    Ok {| status := 200; read := Ok ["z"%byte; "{"%byte; "}"%byte] |};
  time_before := 0;
  time_after := 10
|}.

Definition rep1 : report_row := {|
  rp_textname := "2020-01-01/a.json"; rp_test_start_time := Some 30;
  rp_probe_cc := Some "IT"; rp_probe_asn := Some 12874;
  rp_report_no := 4; rp_test_name := Some "ndt" |}.

Definition rep2 : report_row := {|
  rp_textname := "2020-01-02/b.json"; rp_test_start_time := Some 20;
  rp_probe_cc := Some "GR"; rp_probe_asn := Some 0;
  rp_report_no := 3; rp_test_name := Some "ndt" |}.

Definition files (fault : option exn) : Files := {|
  REPORT_INDEX_OFFSET := 1000;
  report_select _ _ := [rep1; rep2];
  order_report _ l := l;
  files_fault := fault
|}.

Definition all_files (limit : Z) : files_params := {|
  lf_probe_asn := None; lf_probe_cc := None; lf_test_name := None;
  lf_since := None; lf_until := None; lf_since_index := None;
  lf_order_by := "index"; lf_order := "desc"; lf_offset := 0;
  lf_limit := limit |}.

(** A dict of a listing, a set of filters with an input, and a loaded
    configuration. *)
Definition entry : gmap string (pyval (@json Sample.libs)) :=
  <["report_id" := PStr "r1"]> (<["input" := PStr "http://a/"]> ∅).

Definition by_input : filters := {|
  report_id := None; probe_asn := None; probe_cc := Some "IT";
  test_name := None; since := None; until := None; failure := None;
  anomaly := Some true; confirmed := None; input_ := Some "http://a/";
  domain := Some "a"; category_code := Some "NEWS" |}.

Definition loaded : list (string * Setup.cfg) :=
  [("APP_ENV", Setup.CStr "staging");
   ("DATABASE_URL", Setup.CStr "postgresql://u:p@db/metadb");
   ("APP_SECRET_KEY", Setup.CStr "s3cr3t");
   ("BASE_URL", Setup.CStr "https://api.ooni.io/");
   ("CACHE_DEFAULT_TIMEOUT", Setup.CInt 1)].

End Healthy.

(** ** A counters table to run the aggregation on *)

Module Tally.

Definition cell (v : pyval string) : string :=
  match v with
  | PStr s => s
  | PInt z => str_of_Z z
  | _ => ""
  end.

Definition total : gmap string (pyval (@json Sample.libs)) :=
  <["measurement_count" := PInt 12]>
    (<["anomaly_count" := PInt 3]>
       (<["failure_count" := PInt 1]> (<["confirmed_count" := PInt 0]> ∅))).

Definition italy : gmap string (pyval (@json Sample.libs)) :=
  <["probe_cc" := PStr "IT"]> total.

Definition greece : gmap string (pyval (@json Sample.libs)) :=
  <["probe_cc" := PStr "GR"]> (<["measurement_count" := PInt 5]> total).

(** The engine fails with [fault] if there is one; a query without GROUP BY
    has the row of the totals and a grouped query has one row per country,
    unless it filters by a domain, of which the table has none.  The clock is at 1000000
    seconds, a line of CSV is the cells separated by commas. *)
Definition counters (fault : option exn) : @Counters Sample.libs := {|
  counters_execute q :=
    match fault with
    | Some e => Raise e
    | None =>
        match aq_params q !! "domain", aq_group_by q with
        | Some _, _ => Ok []
        | None, [] => Ok [total]
        | None, _ => Ok [italy; greece]
        end
    end;
  datetime_now := 1000000;
  hours_72 := 72 * 3600;
  parse_date_error s := "Unknown string format: " +:+ s;
  csv_writerow l := String.concat "," (map cell l) +:+ "
"
|}.

Definition totals (format : string) : agg_params := {|
  ag_axis_x := None; ag_axis_y := None; ag_category_code := None;
  ag_domain := None; ag_input := None; ag_test_name := None;
  ag_probe_asn := None; ag_probe_cc := None; ag_since := None;
  ag_until := None; ag_format := format |}.

Definition by_country (until : option string) (format : string)
    : agg_params := {|
  ag_axis_x := Some "probe_cc"; ag_axis_y := None; ag_category_code := None;
  ag_domain := None; ag_input := None; ag_test_name := None;
  ag_probe_asn := None; ag_probe_cc := None; ag_since := None;
  ag_until := until; ag_format := format |}.

Definition of_domain (axis_x : option string) (domain : string)
    : agg_params := {|
  ag_axis_x := axis_x; ag_axis_y := None; ag_category_code := None;
  ag_domain := Some domain; ag_input := None; ag_test_name := None;
  ag_probe_asn := None; ag_probe_cc := None; ag_since := None;
  ag_until := None; ag_format := "CSV" |}.

End Tally.

(** ** Vocabulary of the properties of the conversions *)

(** A string made of decimal digits only. *)
Fixpoint all_digits (s : string) : bool :=
  match s with
  | EmptyString => true
  | String c s' => is_digit c && all_digits s'
  end.

(** The value of a decimal numeral read after the digits that gave [acc]. *)
Fixpoint uint_val (acc : Z) (d : Decimal.uint) : Z :=
  match d with
  | Decimal.Nil => acc
  | Decimal.D0 d => uint_val (10 * acc) d
  | Decimal.D1 d => uint_val (10 * acc + 1) d
  | Decimal.D2 d => uint_val (10 * acc + 2) d
  | Decimal.D3 d => uint_val (10 * acc + 3) d
  | Decimal.D4 d => uint_val (10 * acc + 4) d
  | Decimal.D5 d => uint_val (10 * acc + 5) d
  | Decimal.D6 d => uint_val (10 * acc + 6) d
  | Decimal.D7 d => uint_val (10 * acc + 7) d
  | Decimal.D8 d => uint_val (10 * acc + 8) d
  | Decimal.D9 d => uint_val (10 * acc + 9) d
  end.

(** * Properties *)

(** ** The conversions on examples *)

Example py_int_plain : py_int "12874" = Ok 12874.
Proof. reflexivity. Qed.

Example py_int_signed : py_int " -5 " = Ok (-5).
Proof. reflexivity. Qed.

Example py_int_junk : exists m, py_int "x1" = Raise (ValueError m).
Proof. eexists. reflexivity. Qed.

Example str_of_Z_150 : str_of_Z 150 = "150".
Proof. reflexivity. Qed.

Example py_slice_tail : py_slice_from [1; 2; 3] (-1) = [3].
Proof. reflexivity. Qed.

(** ORDER BY in the sample world is the identity: a permutation. *)
Lemma sample_order (fault : option exn) : @SqlOrder (Sample.world fault).
Proof. by split. Qed.

Section Properties.
Context `{L : Libs} `{W : App}.

Local Abbreviation value := (pyval json).


(** ** Inversion of the monadic steps *)

Lemma bind_Ok {A B} (r : result A) (k : A -> result B) (b : B) :
  r ≫= k = Ok b -> exists a, r = Ok a /\ k a = Ok b.
Proof. destruct r as [a|e]; simpl; [eauto | discriminate]. Qed.

Lemma bind_Raise {A B} (r : result A) (k : A -> result B) (e : exn) :
  r = Raise e -> r ≫= k = Raise e.
Proof. intros ->. reflexivity. Qed.

Lemma for_each_Forall2 {A B} (f : A -> result B) l l' :
  for_each f l = Ok l' -> Forall2 (fun x y => f x = Ok y) l l'.
Proof.
  revert l'. induction l as [|x l IH]; simpl; intros l' H.
  - injection H as <-. constructor.
  - apply bind_Ok in H as (y & Hy & H).
    apply bind_Ok in H as (ys & Hys & H).
    injection H as <-. constructor; auto.
Qed.

Lemma for_each_length {A B} (f : A -> result B) l l' :
  for_each f l = Ok l' -> length l' = length l.
Proof. intros H. symmetry. eapply Forall2_length, for_each_Forall2, H. Qed.

Lemma except_OperationalError_Ok {A} (body : result A) a :
  except_OperationalError body = Ok a -> body = Ok a.
Proof.
  destruct body as [x|e]; [done|].
  destruct e; try discriminate. destruct orig; discriminate.
Qed.

(** A successful run of the joined stream: no fault, and every row of the
    outer query turned into a dict. *)
Lemma tmpresults_Ok b ob offset limit tmp :
  tmpresults b ob offset limit = Ok tmp ->
  execute_fault = None /\ 0 <= offset /\ 0 <= limit /\
  for_each row_to_result (outer_query b ob offset limit) = Ok tmp.
Proof.
  intros H. apply except_OperationalError_Ok in H.
  apply bind_Ok in H as (q & Hq & H). unfold execute in Hq.
  destruct execute_fault; [discriminate|].
  destruct (orb _ _) eqn:E; [discriminate|]. injection Hq as <-.
  apply orb_false_iff in E as [E1 E2]. repeat split; auto; lia.
Qed.

(** The stages of a listing that did not take the okhttp shortcut. *)
Lemma list_measurements_Ok req p resp ua :
  list_measurements req p = Ok resp ->
  user_agent req = Some ua -> startswith ua "okhttp" = false ->
  exists f tmp merged res,
    normalise req p = Ok f /\
    tmpresults (build_plan f)
      (fob (infer_order_by (p_order_by p) f) (p_order p))
      (p_offset p) (p_limit p) = Ok tmp /\
    _merge_results tmp = Ok merged /\
    for_each restore_inull merged = Ok res /\
    paginate req (p_offset p) (p_limit p) res = Ok resp.
Proof.
  unfold list_measurements. intros H Hu Hua. rewrite Hu, Hua in H.
  apply bind_Ok in H as (f & Hf & H).
  apply bind_Ok in H as (tmp & Htmp & H).
  apply bind_Ok in H as (merged & Hm & H).
  apply bind_Ok in H as (res & Hr & H).
  exists f, tmp, merged, res. auto.
Qed.

(** ** Deduplication *)


Lemma result_key_Ok r k :
  result_key r = Ok k -> key_of r = (Some k.1, Some k.2).
Proof.
  unfold result_key, key_of.
  destruct (r !! "report_id"); [|discriminate].
  destruct (r !! "input"); [|discriminate].
  intros [= <-]. reflexivity.
Qed.


Lemma merge_loop_spec tmp : forall acc m,
  merge_loop tmp acc = Ok m ->
  exists added, m = (acc ++ added)%list /\
    (NoDup (acc.*1) -> NoDup (m.*1)) /\
    (forall k r, (k, r) ∈ added -> (k ∉ acc.*1) /\ first_with_key tmp k r).
Proof.
  induction tmp as [|r tmp IH]; simpl; intros acc m H.
  - injection H as <-. exists []. rewrite app_nil_r.
    split; [done|]. split; [done|]. intros k r Hin. inversion Hin.
  - apply bind_Ok in H as (k & Hk & H). case_decide as Hin.
    + apply IH in H as (added & -> & Hnd & Hadd).
      exists added. split; [done|]. split; [done|].
      intros k0 r0 H0. destruct (Hadd _ _ H0) as (Hk0 & Hr0 & l1 & l2 & -> & Hl1).
      split; [done|]. split; [done|].
      exists (r :: l1), l2. split; [done|].
      intros x [->|Hx]%elem_of_cons; [|by apply Hl1].
      rewrite Hk. intros [= ->]. contradiction.
    + apply IH in H as (added & -> & Hnd & Hadd).
      exists ((k, r) :: added). split; [by rewrite <- app_assoc|].
      split.
      { intros Hacc. apply Hnd. rewrite fmap_app. apply NoDup_app.
        split; [done|]. split; [|apply NoDup_singleton].
        intros x Hx [->|Hn]%elem_of_cons; [done|inversion Hn]. }
      intros k0 r0 [[= -> ->]|H0]%elem_of_cons.
      * split; [done|]. split; [done|]. exists [], tmp. split; [done|].
        intros x Hx. inversion Hx.
      * destruct (Hadd _ _ H0) as (Hk0 & Hr0 & l1 & l2 & -> & Hl1).
        rewrite fmap_app, not_elem_of_app in Hk0. destruct Hk0 as [Hk0 Hne].
        split; [done|]. split; [done|].
        exists (r :: l1), l2. split; [done|].
        intros x [->|Hx]%elem_of_cons; [|by apply Hl1].
        rewrite Hk. intros [= ->]. apply Hne. simpl. apply list_elem_of_here.
Qed.

(** [_merge_results] keeps, for every key of the stream, the first result
    with that key, and nothing else; the keys kept are pairwise distinct. *)
Lemma merge_results_spec tmp res :
  _merge_results tmp = Ok res ->
  exists ks, NoDup ks /\ Forall2 (first_with_key tmp) ks res.
Proof.
  unfold _merge_results. intros H.
  apply bind_Ok in H as (m & Hm & [= <-]).
  apply merge_loop_spec in Hm as (added & -> & Hnd & Hadd). simpl in *.
  exists (added.*1). split; [apply Hnd; constructor|].
  apply Forall2_fmap, Forall_Forall2_diag, Forall_forall.
  intros [k r] Hin. by apply Hadd.
Qed.

(** ** Where the rows of the joined stream come from *)

Lemma full_outer_join_elem fp mr (j : joined_row) :
  j ∈ full_outer_join fp mr ->
  (exists f m, j = (Some f, Some m) /\ f ∈ fp /\ m ∈ mr /\ join_on f m = true)
  \/ (exists f, j = (Some f, None) /\ f ∈ fp)
  \/ (exists m, j = (None, Some m) /\ m ∈ mr).
Proof.
  unfold full_outer_join. rewrite elem_of_app, !list_elem_of_In.
  intros [H|H].
  - apply in_flat_map in H as (f & Hf & H).
    destruct (List.filter (join_on f) mr) as [|m0 ms] eqn:E.
    + destruct H as [<-|[]]. right; left. exists f.
      by rewrite list_elem_of_In.
    + apply in_map_iff in H as (m & <- & Hm). rewrite <- E in Hm.
      apply filter_In in Hm as [Hm Hon]. left. exists f, m.
      by rewrite !list_elem_of_In.
  - apply in_map_iff in H as (m & <- & Hm).
    apply filter_In in Hm as [Hm _]. right; right. exists m.
    by rewrite list_elem_of_In.
Qed.

Lemma sql_limit_elem {A} n (l : list A) x : x ∈ sql_limit n l -> x ∈ l.
Proof. apply subseteq_take. Qed.

Lemma sql_offset_elem {A} n (l : list A) x : x ∈ sql_offset n l -> x ∈ l.
Proof. apply subseteq_drop. Qed.

Section Ordered.
Context {O : SqlOrder}.

Lemma fp_query_elem b ob offset limit f :
  f ∈ fp_query b ob offset limit -> exists s, f = fpcols s.
Proof.
  intros H%sql_limit_elem. rewrite order_fp_perm in H.
  apply list_elem_of_In, in_map_iff in H as (s & <- & _). by exists s.
Qed.

Lemma mr_query_elem b ob offset limit m :
  m ∈ mr_query b ob offset limit -> exists s, m = cols s.
Proof.
  intros H%sql_limit_elem. rewrite order_mr_perm in H.
  apply list_elem_of_In, in_map_iff in H as (s & <- & _). by exists s.
Qed.

(** Every row of the outer query is the merge of a row of the join. *)
Lemma outer_query_elem b ob offset limit row :
  row ∈ outer_query b ob offset limit ->
  exists j, j ∈ joined b ob offset limit /\ row = merger j.
Proof.
  intros H%sql_limit_elem%sql_offset_elem. rewrite order_merged_perm in H.
  apply list_elem_of_In, in_map_iff in H as (j & <- & Hj).
  exists j. by rewrite list_elem_of_In.
Qed.

(** Both subqueries coalesce input with INULL, so the merged input of a
    joined row is never NULL. *)
Lemma joined_input b ob offset limit j :
  j ∈ joined b ob offset limit -> is_Some (row_input (merger j)).
Proof.
  intros H. apply full_outer_join_elem in H
    as [(f & m & -> & Hf & _)|[(f & -> & Hf)|(m & -> & Hm)]].
  - apply fp_query_elem in Hf as (s & ->). simpl.
    unfold coal, fp_col, mr_col; simpl. by destruct (f_input s).
  - apply fp_query_elem in Hf as (s & ->). simpl.
    unfold coal, fp_col, mr_col; simpl. by destruct (f_input s).
  - apply mr_query_elem in Hm as (s & ->). simpl.
    unfold coal, fp_col, mr_col; simpl. by destruct (s_domain_input_input s).
Qed.

End Ordered.

Lemma for_each_elem {A B} (f : A -> result B) l l' y :
  for_each f l = Ok l' -> y ∈ l' -> exists x, x ∈ l /\ f x = Ok y.
Proof.
  intros H%for_each_Forall2 Hy.
  apply list_elem_of_lookup in Hy as [i Hi].
  destruct (Forall2_lookup_r _ _ _ _ _ H Hi) as (x & Hx & Hxy).
  exists x. split; [|done]. apply list_elem_of_lookup. eauto.
Qed.

(** The entries of the dict built for one row. *)
Lemma row_to_result_lookup row d :
  row_to_result row = Ok d ->
  exists scores, json_loads (row_scores row) = Some scores /\
    d !! "measurement_url" =
      Some (PStr (urljoin BASE_URL
                    ("/api/v1/measurement/"
                     +:+ format_opt_str (row_measurement_id row)))) /\
    d !! "measurement_id" = Some (of_str (row_measurement_id row)) /\
    d !! "report_id" = Some (of_str (row_report_id row)) /\
    d !! "probe_cc" = Some (of_str (row_probe_cc row)) /\
    d !! "probe_asn" =
      Some (PStr ("AS" +:+ format_opt_Z (row_probe_asn row))) /\
    d !! "test_name" = Some (of_str (row_test_name row)) /\
    d !! "measurement_start_time" =
      Some (of_time (row_measurement_start_time row)) /\
    d !! "input" = Some (of_str (row_input row)) /\
    d !! "anomaly" = Some (of_bool (row_anomaly row)) /\
    d !! "confirmed" = Some (of_bool (row_confirmed row)) /\
    d !! "failure" = Some (of_bool (row_failure row)) /\
    d !! "scores" = Some (PJson scores).
Proof.
  unfold row_to_result. destruct (json_loads (row_scores row)) as [sc|];
    [|discriminate].
  intros [= <-]. exists sc. split; [done|].
  repeat split; by simplify_map_eq.
Qed.

(** ** Restoring the absent input, slicing the page *)


Lemma restore_inull_spec d r : restore_inull d = Ok r -> restored d r.
Proof.
  unfold restore_inull, restored. destruct (d !! "input") as [v|];
    [|discriminate].
  case_decide as Hv; intros [= <-]; [left|right].
  - by subst v.
  - split; [|done]. by intros [= ->].
Qed.

Lemma restored_input d r :
  restored d r -> r !! "input" <> Some (PStr INULL).
Proof.
  intros [[_ ->]|[H ->]]; [|done]. by rewrite lookup_insert_eq.
Qed.

Lemma restored_other d r k :
  restored d r -> k <> "input" -> r !! k = d !! k.
Proof.
  intros [[_ ->]|[_ ->]] Hk; [|done]. by rewrite lookup_insert_ne.
Qed.

Lemma py_slice_sublist {A} (l : list A) lo hi : py_slice l lo hi `sublist_of` l.
Proof.
  unfold py_slice. etrans; [apply sublist_take|apply sublist_drop].
Qed.

Lemma py_slice_to_elem {A} (l : list A) hi x : x ∈ py_slice_to l hi -> x ∈ l.
Proof. apply sublist_subseteq, py_slice_sublist. Qed.

(** For a non-negative bound, [l[:hi]] has [min(hi, len(l))] elements. *)
Lemma py_slice_to_length {A} (l : list A) hi :
  0 <= hi -> len (py_slice_to l hi) = Z.min hi (len l).
Proof.
  intros Hhi. unfold len, py_slice_to, py_slice, slice_index.
  destruct (0 <? 0) eqn:E0; [lia|]. destruct (hi <? 0) eqn:E; [lia|].
  rewrite length_take, length_drop. lia.
Qed.

(** ** Pagination *)


Lemma ceil_spec a b : 0 < b -> (ceil a b - 1) * b < a <= ceil a b * b.
Proof.
  intros Hb. unfold ceil.
  pose proof (Z.mul_div_le (- a) b Hb).
  pose proof (Z.mul_succ_div_gt (- a) b Hb). nia.
Qed.

Lemma math_ceil_div_Ok a b c : math_ceil_div a b = Ok c -> b <> 0 /\ c = ceil a b.
Proof.
  unfold math_ceil_div. destruct (b =? 0) eqn:E; [discriminate|].
  intros [= <-]. split; [lia|done].
Qed.

Lemma args_get_dict_set_eq k v d : args_get k (dict_set k v d) = Some v.
Proof.
  induction d as [|[k' v'] d IH]; simpl.
  - by rewrite String.eqb_refl.
  - destruct (String.eqb k' k) eqn:E; simpl; rewrite ?E; [|done].
    by rewrite String.eqb_refl.
Qed.

Lemma args_get_dict_set_ne k k0 v d :
  k0 <> k -> args_get k (dict_set k0 v d) = args_get k d.
Proof.
  intros Hne. induction d as [|[k' v'] d IH]; simpl.
  - by apply String.eqb_neq in Hne as ->.
  - destruct (String.eqb k' k0) eqn:E; simpl.
    + apply String.eqb_eq in E as ->. by apply String.eqb_neq in Hne as ->.
    + by rewrite IH.
Qed.

Lemma args_get_app k d1 d2 :
  args_get k (d1 ++ d2)%list = match args_get k d1 with
                               | Some v => Some v
                               | None => args_get k d2
                               end.
Proof.
  induction d1 as [|[k' v'] d1 IH]; simpl; [done|].
  by destruct (String.eqb k' k).
Qed.

Lemma args_get_to_dict k a : args_get k (to_dict a) = args_get k a.
Proof.
  unfold to_dict.
  enough (forall d, args_get k (fold_left (fun d kv =>
            match args_get (fst kv) d with
            | Some _ => d
            | None => (d ++ [kv])%list
            end) a d)
          = match args_get k d with
            | Some v => Some v
            | None => args_get k a
            end) as H by apply (H []).
  induction a as [|[k' v'] a IH]; intros d; simpl.
  - by destruct (args_get k d).
  - rewrite IH. destruct (args_get k' d) eqn:E'; simpl.
    + destruct (args_get k d) eqn:E; [done|].
      destruct (String.eqb k' k) eqn:Ek; [|done].
      apply String.eqb_eq in Ek as ->. congruence.
    + rewrite args_get_app. destruct (args_get k d); [done|]. simpl.
      by destruct (String.eqb k' k).
Qed.


Lemma next_page_url_args req offset limit :
  next_page_url req offset limit =
    urljoin BASE_URL
      ("/api/v1/measurements?" +:+ urlencode (next_args req offset limit))
  /\ args_get "offset" (next_args req offset limit)
      = Some (str_of_Z (offset + limit))
  /\ args_get "limit" (next_args req offset limit) = Some (str_of_Z limit)
  /\ forall k, k <> "offset" -> k <> "limit" ->
       args_get k (next_args req offset limit) = args_get k (args req).
Proof.
  unfold next_args. repeat split.
  - rewrite args_get_dict_set_ne by done. apply args_get_dict_set_eq.
  - apply args_get_dict_set_eq.
  - intros k H1 H2. rewrite !args_get_dict_set_ne by done.
    apply args_get_to_dict.
Qed.

Lemma paginate_Ok req offset limit res resp :
  paginate req offset limit res = Ok resp ->
  limit <> 0 /\
  results resp = py_slice_to res limit /\
  metadata resp !! "offset" = Some (PInt offset) /\
  metadata resp !! "limit" = Some (PInt limit) /\
  metadata resp !! "current_page" = Some (PInt (ceil offset limit + 1)) /\
  (len res < limit ->
     metadata resp !! "count" = Some (PInt (offset + len res)) /\
     metadata resp !! "pages" = Some (PInt (ceil (offset + len res) limit)) /\
     metadata resp !! "next_url" = Some PNone) /\
  (~ len res < limit ->
     metadata resp !! "count" = Some (PInt (-1)) /\
     metadata resp !! "pages" = Some (PInt (-1)) /\
     metadata resp !! "next_url"
       = Some (PStr (next_page_url req offset limit))).
Proof.
  unfold paginate, len. intros H.
  apply bind_Ok in H as (c & [Hl ->]%math_ceil_div_Ok & H).
  apply bind_Ok in H as ([[count pages] next_url] & Hc & [= <-]). simpl.
  split; [done|]. split; [done|].
  destruct (Z.of_nat (length res) <? limit) eqn:E.
  - apply bind_Ok in Hc as (pg & [_ ->]%math_ceil_div_Ok & [= <- <- <-]).
    repeat split; try (by simplify_map_eq); intros; try lia;
      repeat split; by simplify_map_eq.
  - injection Hc as <- <- <-.
    repeat split; try (by simplify_map_eq); intros; try lia;
      repeat split; by simplify_map_eq.
Qed.

(** ** The stages of a listing *)

Lemma first_with_key_elem tmp k (d : gmap string value) :
  first_with_key tmp k d -> d ∈ tmp.
Proof.
  intros (_ & l1 & l2 & -> & _). apply elem_of_app. right.
  apply list_elem_of_here.
Qed.

(** A page that does not come from the okhttp shortcut is a slice of the
    restored first occurrences of the joined stream. *)
Lemma page_stages req p resp ua :
  list_measurements req p = Ok resp ->
  user_agent req = Some ua -> startswith ua "okhttp" = false ->
  exists f tmp ks merged res,
    normalise req p = Ok f /\
    tmpresults (build_plan f)
      (fob (infer_order_by (p_order_by p) f) (p_order p))
      (p_offset p) (p_limit p) = Ok tmp /\
    NoDup ks /\
    Forall2 (first_with_key tmp) ks merged /\
    Forall2 restored merged res /\
    paginate req (p_offset p) (p_limit p) res = Ok resp.
Proof.
  intros H Hu Hua.
  destruct (list_measurements_Ok _ _ _ _ H Hu Hua)
    as (f & tmp & merged & res & Hf & Htmp & Hm & Hr & Hp).
  apply merge_results_spec in Hm as (ks & Hnd & Hks).
  exists f, tmp, ks, merged, res. repeat split; try done.
  eapply Forall2_impl; [apply for_each_Forall2, Hr|].
  intros d r. apply restore_inull_spec.
Qed.

(** Every record of such a page is the restored first occurrence of its
    key in the joined stream. *)
Lemma page_records req p resp ua :
  list_measurements req p = Ok resp ->
  user_agent req = Some ua -> startswith ua "okhttp" = false ->
  exists f tmp,
    normalise req p = Ok f /\
    tmpresults (build_plan f)
      (fob (infer_order_by (p_order_by p) f) (p_order p))
      (p_offset p) (p_limit p) = Ok tmp /\
    forall r, r ∈ results resp ->
      exists k d, first_with_key tmp k d /\ restored d r.
Proof.
  intros H Hu Hua.
  destruct (page_stages _ _ _ _ H Hu Hua)
    as (f & tmp & ks & merged & res & Hf & Htmp & _ & Hks & Hres & Hp).
  exists f, tmp. split; [done|]. split; [done|].
  apply paginate_Ok in Hp as (_ & -> & _).
  intros r Hr%py_slice_to_elem.
  apply list_elem_of_lookup in Hr as [i Hi].
  destruct (Forall2_lookup_r _ _ _ _ _ Hres Hi) as (d & Hd & Hdr).
  destruct (Forall2_lookup_r _ _ _ _ _ Hks Hd) as (k & _ & Hkd).
  by exists k, d.
Qed.

Lemma bug_probe1034_results (r : gmap string value) :
  r ∈ results bug_probe1034_response -> r = <["measurement_url" := PStr ""]> ∅.
Proof. simpl. by intros ->%list_elem_of_singleton. Qed.

(** C9: in every record [list_measurements] returns, the empty-string
    sentinel that stands for an absent input during the join has been
    replaced by None: no record carries the sentinel as its input, and each
    record is the record of the joined stream with exactly that
    replacement made. *)
Theorem list_measurements_restores_absent_input req p resp :
  list_measurements req p = Ok resp ->
  (forall r, r ∈ results resp -> r !! "input" <> Some (PStr INULL)) /\
  (forall ua, user_agent req = Some ua -> startswith ua "okhttp" = false ->
     exists f tmp,
       normalise req p = Ok f /\
       tmpresults (build_plan f)
         (fob (infer_order_by (p_order_by p) f) (p_order p))
         (p_offset p) (p_limit p) = Ok tmp /\
       forall r, r ∈ results resp ->
         exists d, d ∈ tmp /\
           ((d !! "input" = Some (PStr INULL) /\ r = <["input" := PNone]> d)
            \/ (d !! "input" <> Some (PStr INULL) /\ r = d))).
Proof.
  intros H. split.
  - intros r Hr. destruct (user_agent req) as [ua|] eqn:Hu.
    + destruct (startswith ua "okhttp") eqn:Hua.
      * unfold list_measurements in H. rewrite Hu, Hua in H.
        injection H as <-. by apply bug_probe1034_results in Hr as ->.
      * destruct (page_records _ _ _ _ H Hu Hua) as (f & tmp & _ & _ & Hrec).
        destruct (Hrec r Hr) as (k & d & _ & Hd).
        by eapply restored_input.
    + unfold list_measurements in H. by rewrite Hu in H.
  - intros ua Hu Hua.
    destruct (page_records _ _ _ _ H Hu Hua) as (f & tmp & Hf & Htmp & Hrec).
    exists f, tmp. split; [done|]. split; [done|].
    intros r Hr. destruct (Hrec r Hr) as (k & d & Hk & Hd).
    exists d. split; [by eapply first_with_key_elem|done].
Qed.

End Properties.

Lemma list_measurements_restores_absent_input_witness :
  exists resp,
    @list_measurements Sample.libs (Sample.world None) Sample.browser
      (Sample.no_filters 10) = Ok resp /\
    forall r, r ∈ results resp -> r !! "input" <> Some (PStr INULL).
Proof.
  eexists. split; [reflexivity|].
  apply (@list_measurements_restores_absent_input Sample.libs
           (Sample.world None) Sample.browser (Sample.no_filters 10)).
  reflexivity.
Defined.

Section Deduplication.
Context `{L : Libs} `{W : App} {O : SqlOrder}.

Local Abbreviation value := (pyval json).

(** Every dict of the joined stream comes from a row of the join. *)
Lemma tmpresults_elem b ob offset limit tmp (d : gmap string value) :
  tmpresults b ob offset limit = Ok tmp -> d ∈ tmp ->
  exists j, j ∈ joined b ob offset limit /\ row_to_result (merger j) = Ok d.
Proof.
  intros (_ & _ & _ & H)%tmpresults_Ok Hd.
  destruct (for_each_elem _ _ _ _ H Hd) as (row & Hrow & Hres).
  apply outer_query_elem in Hrow as (j & Hj & ->). eauto.
Qed.

(** The input of a dict of the joined stream is a string, never None. *)
Lemma tmpresults_input b ob offset limit tmp (d : gmap string value) :
  tmpresults b ob offset limit = Ok tmp -> d ∈ tmp ->
  exists i, d !! "input" = Some (PStr i).
Proof.
  intros H Hd. destruct (tmpresults_elem _ _ _ _ _ _ H Hd) as (j & Hj & Hr).
  apply joined_input in Hj as [i Hi].
  apply row_to_result_lookup in Hr as (_ & _ & _ & _ & _ & _ & _ & _ & _ & Hin & _).
  exists i. by rewrite Hin, Hi.
Qed.

Lemma restored_key tmp k (d r : gmap string value) :
  first_with_key tmp k d -> restored d r -> key_of r = out_key k.
Proof.
  intros [Hk _] Hr. apply result_key_Ok in Hk. unfold key_of in *.
  injection Hk as Hrid Hin. unfold out_key.
  rewrite (restored_other _ _ "report_id" Hr) by done. rewrite Hrid.
  destruct Hr as [[Hs ->]|[Hs ->]].
  - rewrite lookup_insert_eq. rewrite Hs in Hin. injection Hin as <-.
    by rewrite decide_True.
  - rewrite Hin. rewrite decide_False; [done|]. intros Heq.
    apply Hs. by rewrite Hin, Heq.
Qed.

Lemma out_key_inj k k' i i' :
  k.2 = PStr i -> k'.2 = PStr i' -> out_key k = out_key k' -> k = k'.
Proof.
  destruct k as [a b], k' as [a' b']. unfold out_key. simpl.
  intros -> -> [= -> Hb]. f_equal.
  repeat case_decide; congruence.
Qed.


End Deduplication.


Section Merge.
Context `{L : Libs} `{W : App} {O : SqlOrder}.

Local Abbreviation value := (pyval json).

(** The policy holds for the dict built from a joined row with both sides,
    once the sentinel is restored. *)
Lemma merge_policy_row f m (d r : gmap string value) :
  row_to_result (merger (Some f, Some m)) = Ok d -> restored d r ->
  merge_policy f m r.
Proof.
  intros Hd Hr. apply row_to_result_lookup in Hd
    as (sc & Hsc & Hurl & Hid & Hrid & Hcc & Hasn & Htn & Hmst & Hin & Han
        & Hco & Hfa & Hscores).
  unfold merger, coal, fp_col, mr_col in *; simpl in *.
  unfold merge_policy.
  split; [|split; [|split; [|split; [|split; [|repeat split]]]]].
  - intros s Hs. rewrite Hs in Hsc. simpl in Hsc. exists sc. split; [done|].
    by rewrite (restored_other _ _ "scores" Hr).
  - intros b Hb. rewrite (restored_other _ _ "anomaly" Hr) by done.
    by rewrite Han, Hb.
  - intros b Hb. rewrite (restored_other _ _ "confirmed" Hr) by done.
    by rewrite Hco, Hb.
  - intros b Hb. rewrite (restored_other _ _ "failure" Hr) by done.
    by rewrite Hfa, Hb.
  - intros i i' Hi _.
    rewrite (restored_other _ _ "measurement_id" Hr) by done.
    rewrite (restored_other _ _ "measurement_url" Hr) by done.
    by rewrite Hid, Hurl, Hi.
  - by rewrite (restored_other _ _ "report_id" Hr).
  - by rewrite (restored_other _ _ "probe_cc" Hr).
  - by rewrite (restored_other _ _ "test_name" Hr).
  - by rewrite (restored_other _ _ "measurement_start_time" Hr).
  - by rewrite (restored_other _ _ "probe_asn" Hr).
  - destruct Hr as [[Hs ->]|[Hs ->]].
    + rewrite lookup_insert_eq. rewrite Hin in Hs.
      destruct (coalesce (fp_input f) (mr_input m)) as [c|]; [|done].
      injection Hs as ->. by rewrite decide_True.
    + rewrite Hin. rewrite Hin in Hs.
      destruct (coalesce (fp_input f) (mr_input m)) as [c|];
        [|by rewrite decide_False].
      rewrite decide_False; [done|]. intros [= ->]. by apply Hs.
Qed.


End Merge.


Section Pagination.
Context `{L : Libs} `{W : App}.

Local Abbreviation value := (pyval json).


End Pagination.



Section Filters.
Context `{L : Libs} `{W : App}.

Lemma full_domain_has_both (l : list string) :
  list_to_set l =@{gset string} list_to_set ["true"; "false"] ->
  "true" ∈ l /\ "false" ∈ l.
Proof.
  intros H. split; apply (elem_of_list_to_set (C:=gset string));
    rewrite H; set_solver.
Qed.

Lemma only_true_iff (l : list string) :
  bool_literals l ->
  list_to_set l ≠@{gset string} list_to_set ["true"; "false"] ->
  list_to_set l =@{gset string} list_to_set ["true"] <-> "true" ∈ l.
Proof.
  intros Hdom Hne. split.
  - intros H. apply (elem_of_list_to_set (C:=gset string)).
    rewrite H. set_solver.
  - intros Ht. apply set_eq. intros s.
    rewrite !elem_of_list_to_set. split.
    + intros Hs. destruct (Hdom s Hs) as [->| ->]; [set_solver|].
      exfalso. apply Hne. apply set_eq. intros x.
      rewrite !elem_of_list_to_set. split.
      * intros Hx. destruct (Hdom x Hx) as [->| ->]; set_solver.
      * intros [->|[->|[]%elem_of_nil]%elem_of_cons]%elem_of_cons; done.
    + intros [->|[]%elem_of_nil]%elem_of_cons. done.
Qed.

(** C5: for a boolean filter (failure, anomaly or confirmed) given as a
    list [l] of the literals "true" and "false": when the set of [l] is the
    full domain, the filter is unset and the call behaves as if the
    argument had not been given; otherwise the filter is the single boolean
    that tells whether "true" is in [l]. *)
Theorem tristate_filter (l : list string) :
  bool_literals l ->
  (list_to_set l =@{gset string} list_to_set ["true"; "false"] ->
     tristate (Some l) = None /\
     forall req p,
       list_measurements req (with_failure (Some l) p)
         = list_measurements req (with_failure None p) /\
       list_measurements req (with_anomaly (Some l) p)
         = list_measurements req (with_anomaly None p) /\
       list_measurements req (with_confirmed (Some l) p)
         = list_measurements req (with_confirmed None p)) /\
  (list_to_set l ≠@{gset string} list_to_set ["true"; "false"] ->
     tristate (Some l) = Some (bool_decide ("true" ∈ l)) /\
     forall req p f,
       (normalise req (with_failure (Some l) p) = Ok f ->
          failure f = Some (bool_decide ("true" ∈ l))) /\
       (normalise req (with_anomaly (Some l) p) = Ok f ->
          anomaly f = Some (bool_decide ("true" ∈ l))) /\
       (normalise req (with_confirmed (Some l) p) = Ok f ->
          confirmed f = Some (bool_decide ("true" ∈ l)))).
Proof.
  intros Hdom. split.
  - intros Hfull.
    assert (Ht : tristate (Some l) = None).
    { unfold tristate. by rewrite decide_True. }
    split; [done|]. intros req p.
    unfold list_measurements, normalise;
      cbn -[tristate parse_probe_asn parse_bound check_order].
    by rewrite Ht.
  - intros Hne.
    assert (Ht : tristate (Some l) = Some (bool_decide ("true" ∈ l))).
    { unfold tristate. rewrite decide_False by done. f_equal.
      apply bool_decide_ext. by apply only_true_iff. }
    split; [done|]. intros req p f. unfold normalise;
      cbn -[tristate parse_probe_asn parse_bound check_order].
    repeat split; intros H;
      apply bind_Ok in H as (asn & _ & H);
      apply bind_Ok in H as (s & _ & H);
      apply bind_Ok in H as (u & _ & H);
      apply bind_Ok in H as (o & _ & H);
      injection H as <-; exact Ht.
Qed.

(** Outside the two literals the filter is still whether the set is exactly
    ["true"]. *)
Lemma tristate_exact (l : list string) b :
  tristate (Some l) = Some b ->
  b = true <-> list_to_set l =@{gset string} list_to_set ["true"].
Proof.
  unfold tristate. case_decide; [discriminate|]. intros [= <-].
  rewrite bool_decide_eq_true. done.
Qed.

(** C10: when the User-Agent header starts with "okhttp", the answer is the
    fixed page whatever the arguments: count 1, pages 1, current_page 1, no
    next link, and one result whose measurement_url is the empty string. *)
Theorem list_measurements_okhttp req p ua :
  user_agent req = Some ua -> startswith ua "okhttp" = true ->
  exists resp,
    list_measurements req p = Ok resp /\
    metadata resp !! "count" = Some (PInt 1) /\
    metadata resp !! "pages" = Some (PInt 1) /\
    metadata resp !! "current_page" = Some (PInt 1) /\
    metadata resp !! "next_url" = Some PNone /\
    metadata resp !! "offset" = Some (PInt 0) /\
    metadata resp !! "limit" = Some (PInt 100) /\
    results resp = [ {[ "measurement_url" := PStr "" ]} ].
Proof.
  intros Hu Hua. exists bug_probe1034_response.
  unfold list_measurements. rewrite Hu, Hua.
  split; [done|]. repeat split; by simplify_map_eq.
Qed.

(** C8: when the engine raises while the listing query runs, a canceled
    query (a timeout in the store) surfaces as the HTTP error 504, which is
    not captured by the error reporting; any other error of the database
    layer reaches the caller unchanged, as an internal error. *)
Theorem list_measurements_query_errors req p ua f e :
  user_agent req = Some ua -> startswith ua "okhttp" = false ->
  normalise req p = Ok f ->
  execute_fault = Some e ->
  (e = OperationalError QueryCanceledError ->
     list_measurements req p = Raise (HTTPException 504 None) /\
     sentry_captures (HTTPException 504 None) = false) /\
  (e <> OperationalError QueryCanceledError ->
     list_measurements req p = Raise e /\
     (is_db_error e = true ->
        is_internal_error e = true /\ sentry_captures e = true)).
Proof.
  intros Hu Hua Hf He. unfold list_measurements. rewrite Hu, Hua, Hf. simpl.
  unfold tmpresults, execute. rewrite He. simpl. split.
  - intros ->. done.
  - intros Hne. split.
    + destruct e; try done. destruct orig; done.
    + destruct e; done.
Qed.

(** C7 fails on the code: a probe_asn that is not a number makes [int()]
    raise ValueError, which nothing catches, so the caller gets an internal
    error and not a BadRequest. *)
Theorem list_measurements_probe_asn_not_numeric req p ua :
  user_agent req = Some ua -> startswith ua "okhttp" = false ->
  exists msg,
    list_measurements req (with_probe_asn (Some "ASfoo") p)
      = Raise (ValueError msg) /\
    is_user_error (ValueError msg) = false /\
    is_internal_error (ValueError msg) = true.
Proof.
  intros Hu Hua. eexists. unfold list_measurements. rewrite Hu, Hua.
  split; [reflexivity|]. done.
Qed.

(** The "AS" prefix is optional, and the rest goes through [int()], which
    also takes a sign and surrounding blanks. *)
Lemma parse_probe_asn_examples :
  parse_probe_asn (Some "AS12874") = Ok (Some 12874) /\
  parse_probe_asn (Some "12874") = Ok (Some 12874) /\
  parse_probe_asn (Some "AS-5") = Ok (Some (-5)) /\
  parse_probe_asn None = Ok None.
Proof. repeat split. Qed.

End Filters.

Lemma tristate_filter_witness :
  bool_literals ["true"; "false"; "true"] /\
  tristate (Some ["true"; "false"; "true"]) = None.
Proof.
  assert (Hdom : bool_literals ["true"; "false"; "true"]).
  { intros s Hs. repeat (apply elem_of_cons in Hs as [->|Hs]); auto.
    by apply elem_of_nil in Hs. }
  split; [done|].
  apply (@tristate_filter Sample.libs (Sample.world None) _ Hdom).
  apply set_eq. intros x. rewrite !elem_of_list_to_set, !elem_of_cons.
  rewrite elem_of_nil. tauto.
Defined.

Lemma list_measurements_okhttp_witness :
  user_agent Sample.android = Some "okhttp/3.12.1" /\
  startswith "okhttp/3.12.1" "okhttp" = true /\
  exists resp,
    @list_measurements Sample.libs (Sample.world None) Sample.android
      (Sample.no_filters 1) = Ok resp /\
    metadata resp !! "count" = Some (PInt 1) /\
    metadata resp !! "pages" = Some (PInt 1) /\
    metadata resp !! "current_page" = Some (PInt 1) /\
    metadata resp !! "next_url" = Some PNone /\
    metadata resp !! "offset" = Some (PInt 0) /\
    metadata resp !! "limit" = Some (PInt 100) /\
    results resp = [ {[ "measurement_url" := PStr "" ]} ].
Proof.
  split; [reflexivity|]. split; [reflexivity|].
  apply (@list_measurements_okhttp Sample.libs (Sample.world None)
           Sample.android (Sample.no_filters 1) "okhttp/3.12.1");
    reflexivity.
Defined.

Lemma list_measurements_query_errors_witness :
  let W := Sample.world (Some (OperationalError QueryCanceledError)) in
  user_agent Sample.browser = Some "Mozilla/5.0" /\
  startswith "Mozilla/5.0" "okhttp" = false /\
  @execute_fault W = Some (OperationalError QueryCanceledError) /\
  @list_measurements Sample.libs W Sample.browser (Sample.no_filters 10)
    = Raise (HTTPException 504 None).
Proof.
  intros W. split; [reflexivity|]. split; [reflexivity|]. split; [reflexivity|].
  destruct (@list_measurements_query_errors Sample.libs W Sample.browser
              (Sample.no_filters 10) "Mozilla/5.0" _ _
              eq_refl eq_refl eq_refl eq_refl) as [Hcanceled _].
  destruct (Hcanceled eq_refl) as [Hraise _]. exact Hraise.
Defined.

Lemma list_measurements_probe_asn_not_numeric_witness :
  user_agent Sample.browser = Some "Mozilla/5.0" /\
  startswith "Mozilla/5.0" "okhttp" = false /\
  exists msg,
    @list_measurements Sample.libs (Sample.world None) Sample.browser
      (with_probe_asn (Some "ASfoo") (Sample.no_filters 10))
      = Raise (ValueError msg) /\
    is_user_error (ValueError msg) = false /\
    is_internal_error (ValueError msg) = true.
Proof.
  split; [reflexivity|]. split; [reflexivity|].
  apply (@list_measurements_probe_asn_not_numeric Sample.libs
           (Sample.world None) Sample.browser (Sample.no_filters 10)
           "Mozilla/5.0"); reflexivity.
Defined.

Section Payload.
Context `{L : Libs} `{W : App}.

(** [b[:1] == bytes([c])] says that [b] begins with [c]. *)
Lemma first_byte (b : list byte) c : py_slice_to b 1 = [c] <-> head b = Some c.
Proof.
  destruct b as [|x b]; [split; discriminate|].
  unfold py_slice_to, py_slice, slice_index.
  change (0 <? 0) with false. change (1 <? 0) with false. cbv iota.
  assert (Z.to_nat (Z.min 0 (Z.of_nat (length (x :: b)))) = 0%nat) as ->
    by (simpl length; lia).
  assert (Z.to_nat (Z.min 1 (Z.of_nat (length (x :: b))) - Z.min 0 (Z.of_nat (length (x :: b)))) = 1%nat)
    as -> by (simpl length; lia).
  simpl. split; intros [= ->]; done.
Qed.

(** [b[-1:] == bytes([c])] says that [b] ends with [c]. *)
Lemma last_byte (b : list byte) c :
  py_slice_from b (-1) = [c] <-> last b = Some c.
Proof.
  destruct b as [|x b _] using rev_ind; [split; discriminate|].
  rewrite last_snoc.
  unfold py_slice_from, py_slice, slice_index.
  change (-1 <? 0) with true. cbv iota.
  destruct (Z.of_nat (length (b ++ [x])) <? 0) eqn:E;
    [apply Z.ltb_lt in E; lia|].
  assert (Z.to_nat (Z.max 0 (Z.of_nat (length (b ++ [x])) + -1))
          = length b) as -> by (rewrite length_app; simpl; lia).
  rewrite drop_app_length.
  assert (Z.to_nat (Z.min (Z.of_nat (length (b ++ [x])))
                      (Z.of_nat (length (b ++ [x])))
                    - Z.max 0 (Z.of_nat (length (b ++ [x])) + -1))
          = 1%nat) as -> by (rewrite length_app; simpl; lia).
  simpl. split; intros [= ->]; done.
Qed.

(** C4: once the locator row of a canonical identifier is found and the
    range request is answered without an HTTP error, a body whose length is
    not the frame length, or a decompressed slice whose length is not the
    intra-frame length, that does not begin with the byte "{" or does not
    end with the byte "}", makes [get_measurement] raise a RuntimeError: a
    fatal error, not NotFound. *)
Theorem get_measurement_integrity measurement_id download g msm_no msmt r :
  startswith measurement_id FASTPATH_MSM_ID_PREFIX = false ->
  RE_MSM_ID_match measurement_id = Some g ->
  py_int g = Ok msm_no ->
  fetch_msmt msm_no = Ok (Some msmt) ->
  requests_get (urljoin AUTOCLAVED_BASE_URL (autoclaved_filename msmt))
    [("Range", "bytes=" +:+ str_of_Z (frame_off msmt) +:+ "-"
               +:+ str_of_Z (frame_off msmt + frame_size msmt - 1));
     (REQID_HDR, request_id)] = Ok r ->
  raise_for_status r = Ok () ->
  (len (content r) <> frame_size msmt
   \/ exists frame,
        lz4framed_decompress (content r) = Some frame /\
        let blob :=
          py_slice frame (intra_off msmt) (intra_off msmt + intra_size msmt) in
        len blob <> intra_size msmt
        \/ head blob <> Some "{"%byte \/ last blob <> Some "}"%byte) ->
  exists msg args,
    get_measurement measurement_id download = Raise (RuntimeError msg args) /\
    is_NotFound (RuntimeError msg args) = false /\
    is_internal_error (RuntimeError msg args) = true.
Proof.
  intros Hfp Hre Hint Hrow Hget Hst Hbad.
  unfold get_measurement. rewrite Hfp, Hre, Hint. simpl.
  rewrite Hrow. simpl. rewrite Hget. simpl. rewrite Hst. simpl.
  destruct (len (content r) =? frame_size msmt) eqn:Elen; simpl;
    [|by eauto].
  destruct Hbad as [Hbad|(frame & Hframe & Hbad)]; [lia|].
  rewrite Hframe. simpl in Hbad.
  set (blob := py_slice frame (intra_off msmt)
                 (intra_off msmt + intra_size msmt)) in *.
  assert (Hcond : negb (len blob =? intra_size msmt)
            || negb (bool_decide (py_slice_to blob 1 = ["{"%byte]))
            || negb (bool_decide (py_slice_from blob (-1) = ["}"%byte]))
          = true).
  { destruct Hbad as [Hb|[Hb|Hb]].
    - apply orb_true_iff. left. apply orb_true_iff. left.
      apply negb_true_iff. lia.
    - apply orb_true_iff. left. apply orb_true_iff. right.
      apply negb_true_iff, bool_decide_eq_false. by rewrite first_byte.
    - apply orb_true_iff. right.
      apply negb_true_iff, bool_decide_eq_false. by rewrite last_byte. }
  rewrite Hcond. by eauto.
Qed.

(** C6, as the code has it: for a fastpath identifier, when the fastpath
    host answers with a status other than 200, or reading the body raises,
    or the body does not decompress, [get_measurement] fails with
    BadRequest (HTTP 400), whose message is "No measurement found". *)
Theorem get_measurement_fastpath_failure measurement_id download r :
  startswith measurement_id FASTPATH_MSM_ID_PREFIX = true ->
  fastpath_getresponse
    ("/measurements/"
     +:+ str_drop (String.length FASTPATH_MSM_ID_PREFIX) measurement_id
     +:+ ".json.lz4") = Ok r ->
  (status r <> 200
   \/ (exists e, read r = Raise e)
   \/ (exists b, read r = Ok b /\ lz4framed_decompress b = None)) ->
  get_measurement measurement_id download
    = Raise (HTTPException 400 (Some "No measurement found")).
Proof.
  intros Hfp Hget Hbad. unfold get_measurement. rewrite Hfp.
  unfold get_one_fastpath_measurement. rewrite Hget. simpl.
  destruct (status r =? 200) eqn:Est; [|done].
  destruct Hbad as [Hs|[[e He]|(b & Hb & Hd)]]; [lia| |].
  - by rewrite He.
  - rewrite Hb. simpl. by rewrite Hd.
Qed.

(** An error raised while connecting or sending the request comes before
    the [try] and reaches the caller as it is. *)
Lemma get_measurement_fastpath_unreachable measurement_id download e :
  startswith measurement_id FASTPATH_MSM_ID_PREFIX = true ->
  fastpath_getresponse
    ("/measurements/"
     +:+ str_drop (String.length FASTPATH_MSM_ID_PREFIX) measurement_id
     +:+ ".json.lz4") = Raise e ->
  get_measurement measurement_id download = Raise e.
Proof.
  intros Hfp Hget. unfold get_measurement. rewrite Hfp.
  unfold get_one_fastpath_measurement. by rewrite Hget.
Qed.

End Payload.

Lemma get_measurement_integrity_witness :
  exists msg args,
    @get_measurement Sample.libs (Sample.world None) "temp-id-7" None
      = Raise (RuntimeError msg args) /\
    is_NotFound (RuntimeError msg args) = false /\
    is_internal_error (RuntimeError msg args) = true.
Proof.
  eapply (@get_measurement_integrity Sample.libs (Sample.world None)
            "temp-id-7" None "7" 7 Sample.found); try reflexivity.
  left. vm_compute. discriminate.
Defined.

Lemma get_measurement_fastpath_failure_witness :
  @get_measurement Sample.libs (Sample.world None) "temp-fid-xyz" None
    = Raise (HTTPException 400 (Some "No measurement found")).
Proof.
  eapply (@get_measurement_fastpath_failure Sample.libs (Sample.world None)
            "temp-fid-xyz" None); try reflexivity.
  left. vm_compute. discriminate.
Defined.

(** C6 as stated fails: a 404 from the fastpath host gives BadRequest (400),
    not NotFound, with the message "No measurement found"; and a host that
    cannot be reached gives the connection error itself. *)
Lemma get_measurement_fastpath_not_NotFound :
  (exists r,
     @fastpath_getresponse (Sample.world None) "/measurements/xyz.json.lz4"
       = Ok r /\ status r <> 200) /\
  @get_measurement Sample.libs (Sample.world None) "temp-fid-xyz" None
    = Raise (HTTPException 400 (Some "No measurement found")) /\
  is_NotFound (HTTPException 400 (Some "No measurement found")) = false /\
  @get_measurement Sample.libs (Sample.world None) "temp-fid-down" None
    = Raise (ConnectionError "Connection refused") /\
  is_NotFound (ConnectionError "Connection refused") = false.
Proof.
  split; [eexists; split; [reflexivity|vm_compute; discriminate]|].
  repeat split.
Qed.

(** ** Integers and their decimal text *)

Section Integers.

Lemma is_digit_not_space c : is_digit c = true -> py_isspace c = false.
Proof.
  destruct c as [[] [] [] [] [] [] [] []]; vm_compute; congruence.
Qed.

Lemma string_of_uint_digits d :
  all_digits (NilEmpty.string_of_uint d) = true.
Proof. induction d; simpl; auto. Qed.

Lemma string_of_uint_nonempty d :
  d <> Decimal.Nil -> NilEmpty.string_of_uint d <> "".
Proof. destruct d; simpl; congruence. Qed.

Lemma int_digits_digit c s acc b :
  is_digit c = true ->
  int_digits acc b (String c s) = int_digits (10 * acc + digit_val c) true s.
Proof. intros Hc. cbn -[Z.mul Z.add]. by rewrite Hc. Qed.

Lemma int_digits_string_of_uint d : forall acc b,
  d <> Decimal.Nil \/ b = true ->
  int_digits acc b (NilEmpty.string_of_uint d) = Some (uint_val acc d).
Proof.
  induction d; intros acc b Hb.
  { simpl. destruct Hb as [?| ->]; [congruence|done]. }
  all: cbn [NilEmpty.string_of_uint uint_val].
  all: rewrite int_digits_digit by reflexivity.
  all: rewrite IHd by auto.
  all: match goal with
       | |- context [digit_val ?c] =>
           let v := eval vm_compute in (digit_val c) in
           change (digit_val c) with v
       end.
  all: f_equal; f_equal; lia.
Qed.

Lemma uint_val_of_lu d : forall d',
  uint_val (Z.of_N (DecimalPos.Unsigned.of_lu d')) d
  = Z.of_N (DecimalPos.Unsigned.of_lu (Decimal.revapp d d')).
Proof.
  induction d; intros d'; simpl; [done|..];
    rewrite <- IHd; f_equal; simpl DecimalPos.Unsigned.of_lu; lia.
Qed.

Lemma uint_val_of_uint d : uint_val 0 d = Z.of_uint d.
Proof.
  unfold Z.of_uint. rewrite DecimalPos.Unsigned.of_uint_alt.
  apply (uint_val_of_lu d Decimal.Nil).
Qed.

Lemma lstrip_digits s : all_digits s = true -> lstrip s = s.
Proof.
  destruct s as [|c s]; [done|]. simpl.
  intros [Hc _]%andb_true_iff. by rewrite (is_digit_not_space _ Hc).
Qed.

Lemma rstrip_digits s : all_digits s = true -> rstrip s = s.
Proof.
  induction s as [|c s IH]; [done|]. simpl.
  intros [Hc Hs]%andb_true_iff. rewrite (IH Hs).
  destruct s; [|done]. by rewrite (is_digit_not_space _ Hc).
Qed.

(** On a non-empty string of digits [int()] reads the digits. *)
Lemma py_int_digits s :
  all_digits s = true -> s <> "" ->
  py_int s = match int_digits 0 false s with
             | Some z => Ok z
             | None =>
                 Raise (ValueError
                          ("invalid literal for int() with base 10: '"
                           +:+ s +:+ "'"))
             end.
Proof.
  intros Hs Hne. unfold py_int.
  rewrite (lstrip_digits _ Hs), (rstrip_digits _ Hs).
  destruct s as [|c s]; [done|].
  apply andb_true_iff in Hs as [Hc _].
  destruct c as [[] [] [] [] [] [] [] []]; try discriminate Hc; reflexivity.
Qed.

Lemma int_digits_all_digits s : forall acc b,
  all_digits s = true -> s <> "" \/ b = true -> 0 <= acc ->
  exists z, int_digits acc b s = Some z /\ 0 <= z.
Proof.
  induction s as [|c s IH]; intros acc b Hs Hb Hacc.
  - destruct Hb as [?| ->]; [done|]. exists acc. done.
  - apply andb_true_iff in Hs as [Hc Hs].
    rewrite (int_digits_digit _ _ _ _ Hc). apply IH; auto.
    assert (0 <= digit_val c); [|lia].
    destruct c as [[] [] [] [] [] [] [] []]; try discriminate Hc;
      vm_compute; discriminate.
Qed.

(** [int()] never fails on a non-empty string of digits. *)
Lemma py_int_digits_Ok s :
  all_digits s = true -> s <> "" -> exists n, py_int s = Ok n /\ 0 <= n.
Proof.
  intros Hs Hne. rewrite (py_int_digits _ Hs Hne).
  destruct (int_digits_all_digits s 0 false Hs) as (z & -> & Hz); auto.
  - lia.
  - by exists z.
Qed.

End Integers.

Section Identifiers.
Context `{L : Libs} `{W : App}.

Local Abbreviation value := (pyval json).

Local Arguments String.append !_ _ / : simpl nomatch.

(** [int()] reads back the decimal text of any integer. *)
Lemma py_int_str_of_Z z : py_int (str_of_Z z) = Ok z.
Proof.
  destruct z as [|p|p]; [reflexivity|..]; unfold str_of_Z, Z.to_int;
    pose proof (DecimalPos.Unsigned.to_uint_nonnil p) as Hnil;
    pose proof (string_of_uint_digits (Pos.to_uint p)) as Hd;
    pose proof (string_of_uint_nonempty _ Hnil) as Hne;
    assert (Hs : NilZero.string_of_uint (Pos.to_uint p)
                 = NilEmpty.string_of_uint (Pos.to_uint p))
      by (by destruct (Pos.to_uint p));
    assert (Hv : uint_val 0 (Pos.to_uint p) = Z.pos p)
      by (rewrite uint_val_of_uint; unfold Z.of_uint;
          by rewrite DecimalPos.Unsigned.of_to).
  - cbn [NilZero.string_of_int]. rewrite Hs, (py_int_digits _ Hd Hne).
    rewrite int_digits_string_of_uint by auto. by rewrite Hv.
  - cbn [NilZero.string_of_int]. rewrite Hs. unfold py_int.
    cbn [lstrip]. change (py_isspace "-") with false. cbv iota.
    cbn [rstrip]. rewrite (rstrip_digits _ Hd).
    destruct (NilEmpty.string_of_uint (Pos.to_uint p)) as [|c r] eqn:E;
      [done|].
    rewrite <- E. rewrite int_digits_string_of_uint by auto.
    simpl. by rewrite Hv.
Qed.

Lemma startswith_app p x : startswith (p +:+ x) p = true.
Proof.
  unfold startswith. induction p as [|c p IH]; simpl.
  - by destruct x.
  - destruct (ascii_dec c c); [done|congruence].
Qed.

Lemma str_drop_app p x : str_drop (String.length p) (p +:+ x) = x.
Proof. induction p as [|c p IH]; simpl; [by destruct x|done]. Qed.

Lemma parse_probe_asn_AS n :
  parse_probe_asn (Some ("AS" +:+ str_of_Z n)) = Ok (Some n).
Proof.
  unfold parse_probe_asn. rewrite startswith_app.
  rewrite (str_drop_app "AS"). by rewrite py_int_str_of_Z.
Qed.

(** X1: the probe_asn a listing shows for a row, "AS" followed by the
    number, is accepted back by the probe_asn filter and parses to the same
    number. *)
Theorem probe_asn_round_trip row (d : gmap string value) n :
  row_to_result row = Ok d -> row_probe_asn row = Some n ->
  exists s, d !! "probe_asn" = Some (PStr s) /\
            parse_probe_asn (Some s) = Ok (Some n).
Proof.
  intros Hd Hn. apply row_to_result_lookup in Hd
    as (_ & _ & _ & _ & _ & _ & Hasn & _).
  rewrite Hn in Hasn. exists ("AS" +:+ str_of_Z n).
  split; [exact Hasn|apply parse_probe_asn_AS].
Qed.

Lemma prefix_split p : forall s,
  String.prefix p s = true -> s = p +:+ str_drop (String.length p) s.
Proof.
  induction p as [|c p IH]; intros s H; [by destruct s|].
  destruct s as [|c' s]; [discriminate|]. simpl in *.
  destruct (ascii_dec c c') as [->|]; [|discriminate].
  change (String c' s = String c' (p +:+ str_drop (String.length p) s)).
  f_equal. by apply IH.
Qed.

Lemma append_nil_r s : s +:+ "" = s.
Proof. induction s; simpl; congruence. Qed.

Lemma span_digits_spec s : forall d r,
  span_digits s = (d, r) ->
  s = d +:+ r /\ all_digits d = true /\
  match r with String c _ => is_digit c = false | EmptyString => True end.
Proof.
  induction s as [|c s IH]; simpl; intros d r H.
  - by injection H as <- <-.
  - destruct (is_digit c) eqn:Hc.
    + destruct (span_digits s) as [d0 r0]. injection H as <- <-.
      destruct (IH d0 r0 eq_refl) as (-> & Hd & Hr). simpl.
      by rewrite Hc, Hd.
    + by injection H as <- <-.
Qed.

Lemma span_digits_app d : forall r,
  all_digits d = true ->
  match r with String c _ => is_digit c = false | EmptyString => True end ->
  span_digits (d +:+ r) = (d, r).
Proof.
  induction d as [|c d IH]; simpl; intros r Hd Hr.
  - destruct r as [|c r]; [done|]. simpl. by rewrite Hr.
  - apply andb_true_iff in Hd as [Hc Hd]. by rewrite Hc, (IH r Hd Hr).
Qed.

(** What RE_MSM_ID accepts: the prefix, a dash and a non-empty run of
    digits, alone or followed by one newline. *)
Lemma RE_MSM_ID_match_iff s d :
  RE_MSM_ID_match s = Some d <->
  d <> "" /\ all_digits d = true /\
  (s = "temp-id-" +:+ d \/ s = "temp-id-" +:+ d +:+ String "010" EmptyString).
Proof.
  unfold RE_MSM_ID_match. split.
  - destruct (startswith s (MSM_ID_PREFIX +:+ "-")) eqn:Hp; [|discriminate].
    apply prefix_split in Hp.
    destruct (span_digits _) as [d0 r0] eqn:Hsp.
    apply span_digits_spec in Hsp as (Hs & Hd & _).
    destruct (String.eqb_spec d0 "") as [->|Hne]; [discriminate|].
    destruct (String.eqb_spec r0 "") as [->|Hr0]; simpl.
    + intros [= <-]. split; [done|]. split; [done|]. left.
      rewrite Hp at 1. rewrite Hs. by rewrite append_nil_r.
    + destruct (String.eqb_spec r0 (String "010" EmptyString)) as [->|];
        [|discriminate].
      intros [= <-]. split; [done|]. split; [done|]. right.
      rewrite Hp at 1. by rewrite Hs.
  - intros (Hne & Hd & [->| ->]).
    + change (MSM_ID_PREFIX +:+ "-") with "temp-id-".
      rewrite startswith_app, str_drop_app.
      replace d with (d +:+ "") at 1 by apply append_nil_r.
      rewrite (span_digits_app d "" Hd I).
      by apply String.eqb_neq in Hne as ->.
    + change (MSM_ID_PREFIX +:+ "-") with "temp-id-".
      rewrite startswith_app, str_drop_app.
      rewrite (span_digits_app d (String "010" EmptyString) Hd eq_refl).
      by apply String.eqb_neq in Hne as ->.
Qed.

End Identifiers.

Lemma probe_asn_round_trip_witness :
  exists d s,
    @row_to_result Sample.libs (Sample.world None)
      (merger (Some (fpcols Sample.fp1), Some (cols Sample.mr1))) = Ok d /\
    d !! "probe_asn" = Some (PStr s) /\
    parse_probe_asn (Some s) = Ok (Some 12874).
Proof.
  eexists.
  destruct (@probe_asn_round_trip Sample.libs (Sample.world None)
              (merger (Some (fpcols Sample.fp1), Some (cols Sample.mr1)))
              _ 12874 eq_refl eq_refl) as (s & Hs & Hp).
  exists s. split; [reflexivity|]. split; [exact Hs|exact Hp].
Defined.

Section Retrieval.
Context `{L : Libs} `{W : App}.

Local Abbreviation value := (pyval json).

Local Arguments String.append !_ _ / : simpl nomatch.

Lemma canonical_id_not_fastpath x :
  startswith ("temp-id-" +:+ x) FASTPATH_MSM_ID_PREFIX = false.
Proof. reflexivity. Qed.

(** The steps of [get_measurement] that follow the parsing of a canonical
    identifier whose digits are [g]. *)
Lemma get_measurement_canonical measurement_id download g :
  startswith measurement_id FASTPATH_MSM_ID_PREFIX = false ->
  RE_MSM_ID_match measurement_id = Some g ->
  exists msm_no,
    py_int g = Ok msm_no /\ 0 <= msm_no /\
    (fetch_msmt msm_no = Ok None ->
       get_measurement measurement_id download = Raise (abort 404)) /\
    (forall e, fetch_msmt msm_no = Raise e ->
       get_measurement measurement_id download = Raise e).
Proof.
  intros Hfp Hre. pose proof Hre as (Hne & Hd & _)%RE_MSM_ID_match_iff.
  destruct (py_int_digits_Ok g Hd Hne) as (n & Hn & Hpos).
  exists n. split; [done|]. split; [done|].
  unfold get_measurement. rewrite Hfp, Hre, Hn. simpl.
  split; intros; by rewrite H.
Qed.

(** X2: the identifier a listing gives to a canonical row with a
    non-negative msm_no is accepted by [get_measurement] and makes it look
    up that same msm_no: when no row has it the answer is the HTTP error
    404 (NotFound), and an error of the lookup reaches the caller. *)
Theorem canonical_id_round_trip (s : mr_source) n download :
  s_msm_no s = Some n -> 0 <= n ->
  exists measurement_id,
    mr_measurement_id (cols s) = Some measurement_id /\
    (fetch_msmt n = Ok None ->
       get_measurement measurement_id download
         = Raise (HTTPException 404 None) /\
       is_NotFound (HTTPException 404 None) = true) /\
    (forall e, fetch_msmt n = Raise e ->
       get_measurement measurement_id download = Raise e).
Proof.
  intros Hs Hn. exists ("temp-id-" +:+ str_of_Z n).
  split; [simpl; by rewrite Hs|].
  assert (Hre : RE_MSM_ID_match ("temp-id-" +:+ str_of_Z n)
                = Some (str_of_Z n)).
  { apply RE_MSM_ID_match_iff.
    destruct n as [|p|p]; [by auto| |lia].
    unfold str_of_Z, Z.to_int.
    pose proof (DecimalPos.Unsigned.to_uint_nonnil p) as Hnil.
    assert (Hs' : NilZero.string_of_int (Decimal.Pos (Pos.to_uint p))
                  = NilEmpty.string_of_uint (Pos.to_uint p))
      by (simpl; by destruct (Pos.to_uint p)).
    rewrite Hs'. split; [by apply string_of_uint_nonempty|].
    split; [apply string_of_uint_digits|by left]. }
  destruct (get_measurement_canonical _ download _
              (canonical_id_not_fastpath _) Hre)
    as (m & Hm & _ & Hnone & Herr).
  rewrite py_int_str_of_Z in Hm. injection Hm as <-.
  split; [|done]. intros H. split; [by apply Hnone|done].
Qed.

(** X3: the identifier a listing gives to a fastpath row makes
    [get_measurement] ask the fastpath host for that row's tid; when the
    host answers 200 with a body that decompresses, the decompressed body
    is returned as it is, with the JSON content type and no attachment
    header, whether or not a download was asked for. *)
Theorem fastpath_id_round_trip (s : fp_source) tid download r body blob :
  f_tid s = Some tid ->
  fastpath_getresponse ("/measurements/" +:+ tid +:+ ".json.lz4") = Ok r ->
  status r = 200 -> read r = Ok body ->
  lz4framed_decompress body = Some blob ->
  exists measurement_id,
    fp_measurement_id (fpcols s) = Some measurement_id /\
    get_measurement measurement_id download
      = Ok {| data := blob;
              headers := [("Content-Type", "application/json", [])] |}.
Proof.
  intros Hs Hget Hst Hread Hdec. exists (FASTPATH_MSM_ID_PREFIX +:+ tid).
  split; [simpl; by rewrite Hs|].
  unfold get_measurement. rewrite startswith_app.
  unfold get_one_fastpath_measurement. rewrite str_drop_app, Hget. simpl.
  rewrite Hst. simpl. rewrite Hread. simpl. by rewrite Hdec.
Qed.


(** X5: whatever [get_measurement] returns for a canonical identifier
    begins with "{" and ends with "}", has the length recorded for it in the
    store, carries the JSON content type, and has the attachment header,
    named after the identifier and the report file, exactly when a download
    was asked for. *)
Theorem get_measurement_payload measurement_id download resp :
  startswith measurement_id FASTPATH_MSM_ID_PREFIX = false ->
  get_measurement measurement_id download = Ok resp ->
  head (data resp) = Some "{"%byte /\ last (data resp) = Some "}"%byte /\
  exists msm_no msmt,
    fetch_msmt msm_no = Ok (Some msmt) /\
    len (data resp) = intra_size msmt /\
    headers resp =
      (("Content-Type", "application/json", [])
       :: match download with
          | None => []
          | Some _ =>
              [("Content-Disposition", "attachment",
                [("filename",
                  "ooni-msmt-" +:+ measurement_id +:+ "-"
                  +:+ replace_char "/" "-" (textname msmt))])]
          end)%list.
Proof.
  intros Hfp H. unfold get_measurement in H. rewrite Hfp in H.
  destruct (RE_MSM_ID_match measurement_id) as [g|]; [|discriminate].
  apply bind_Ok in H as (msm_no & Hint & H).
  apply bind_Ok in H as ([msmt|] & Hrow & H); [|discriminate].
  apply bind_Ok in H as (r & Hget & H).
  apply bind_Ok in H as ([] & Hst & H).
  destruct (len (content r) =? frame_size msmt) eqn:Elen; simpl in H;
    [|discriminate].
  destruct (lz4framed_decompress (content r)) as [frame|]; [|discriminate].
  set (blob := py_slice frame (intra_off msmt)
                 (intra_off msmt + intra_size msmt)) in *.
  destruct (len blob =? intra_size msmt) eqn:E1; simpl in H; [|discriminate].
  destruct (bool_decide (py_slice_to blob 1 = ["{"%byte])) eqn:E2;
    simpl in H; [|discriminate].
  destruct (bool_decide (py_slice_from blob (-1) = ["}"%byte])) eqn:E3;
    simpl in H; [|discriminate].
  injection H as <-. simpl.
  apply bool_decide_eq_true, first_byte in E2.
  apply bool_decide_eq_true, last_byte in E3.
  split; [done|]. split; [done|]. exists msm_no, msmt.
  split; [done|]. split; [lia|]. by destruct download.
Qed.

(** X6: the only errors [get_measurement] raises for an identifier that is
    not fastpath-tagged are BadRequest for a malformed identifier, 404 when
    no row matches, an error of the store lookup or of the range request,
    the HTTP error of a 4xx or 5xx answer, a decompression error, and
    RuntimeError for a frame or slice that fails validation.  In
    particular [int()] never fails on the digits the pattern has matched. *)
Theorem get_measurement_errors measurement_id download e :
  startswith measurement_id FASTPATH_MSM_ID_PREFIX = false ->
  get_measurement measurement_id download = Raise e ->
  e = HTTPException 400 (Some "Invalid measurement_id")
  \/ e = HTTPException 404 None
  \/ (exists msm_no, 0 <= msm_no /\ fetch_msmt msm_no = Raise e)
  \/ (exists url hdrs, requests_get url hdrs = Raise e)
  \/ (exists st, 400 <= st < 600 /\ e = RequestsHTTPError st)
  \/ e = Lz4FramedError
  \/ (exists msg args, e = RuntimeError msg args).
Proof.
  intros Hfp H. unfold get_measurement in H. rewrite Hfp in H.
  destruct (RE_MSM_ID_match measurement_id) as [g|] eqn:Hre;
    [|injection H as <-; by left].
  apply RE_MSM_ID_match_iff in Hre as (Hne & Hd & _).
  destruct (py_int_digits_Ok g Hd Hne) as (n & Hn & Hpos).
  rewrite Hn in H. simpl in H.
  destruct (fetch_msmt n) as [[msmt|]|e0] eqn:Hrow; simpl in H.
  - destruct (requests_get _ _) as [r|e0] eqn:Hget; simpl in H.
    + unfold raise_for_status in H.
      destruct ((400 <=? status_code r) && (status_code r <? 600)) eqn:Est;
        simpl in H.
      * injection H as <-. do 4 right. left. exists (status_code r).
        split; [lia|done].
      * destruct (len (content r) =? frame_size msmt); simpl in H;
          [|injection H as <-; do 6 right; by eauto].
        destruct (lz4framed_decompress (content r)); simpl in H;
          [|injection H as <-; do 5 right; by left].
        destruct (_ || _); [|discriminate].
        injection H as <-. do 6 right. by eauto.
    + injection H as <-. do 3 right. left. by eauto.
  - injection H as <-. right. by left.
  - injection H as <-. do 2 right. left. by eauto.
Qed.

End Retrieval.

Lemma canonical_id_round_trip_witness :
  exists measurement_id,
    mr_measurement_id (cols Sample.mr3) = Some measurement_id /\
    @get_measurement Sample.libs (Sample.world None) measurement_id None
      = Raise (HTTPException 404 None).
Proof.
  destruct (@canonical_id_round_trip Sample.libs (Sample.world None)
              Sample.mr3 8 None eq_refl)
    as (measurement_id & Hid & H404 & _); [lia|].
  exists measurement_id. split; [exact Hid|]. apply H404. reflexivity.
Defined.

Lemma fastpath_id_round_trip_witness :
  exists measurement_id,
    fp_measurement_id (fpcols Sample.fp1) = Some measurement_id /\
    @get_measurement Sample.libs Healthy.world measurement_id (Some "1")
      = Ok {| data := ["{"%byte; "}"%byte];
              headers := [("Content-Type", "application/json", [])] |}.
Proof.
  apply (@fastpath_id_round_trip Sample.libs Healthy.world Sample.fp1 "abc"
           (Some "1")
           {| status := 200; read := Ok ["z"%byte; "{"%byte; "}"%byte] |}
           ["z"%byte; "{"%byte; "}"%byte]); reflexivity.
Defined.


Lemma get_measurement_payload_witness :
  exists resp,
    @get_measurement Sample.libs Healthy.world "temp-id-7" (Some "1")
      = Ok resp /\
    head (data resp) = Some "{"%byte /\ last (data resp) = Some "}"%byte.
Proof.
  eexists. split; [reflexivity|].
  destruct (@get_measurement_payload Sample.libs Healthy.world "temp-id-7"
              (Some "1") _ eq_refl eq_refl) as (Hfirst & Hlast & _).
  split; [exact Hfirst|exact Hlast].
Defined.

Lemma get_measurement_errors_witness :
  exists e,
    @get_measurement Sample.libs (Sample.world None) "temp-id-8" None
      = Raise e /\
    (e = HTTPException 400 (Some "Invalid measurement_id")
     \/ e = HTTPException 404 None
     \/ (exists msm_no,
           0 <= msm_no /\
           @fetch_msmt (Sample.world None) msm_no = Raise e)
     \/ (exists url hdrs,
           @requests_get (Sample.world None) url hdrs = Raise e)
     \/ (exists st, 400 <= st < 600 /\ e = RequestsHTTPError st)
     \/ e = Lz4FramedError
     \/ (exists msg args, e = RuntimeError msg args)).
Proof.
  eexists. split; [reflexivity|].
  apply (@get_measurement_errors Sample.libs (Sample.world None)
           "temp-id-8" None); reflexivity.
Defined.

Section MergeResults.
Context `{L : Libs} `{W : App}.

Local Abbreviation value := (pyval json).

Lemma merge_loop_sublist tmp : forall acc m,
  merge_loop tmp acc = Ok m ->
  exists added, m = (acc ++ added)%list /\ added.*2 `sublist_of` tmp /\
    forall x, x ∈ tmp -> exists k, result_key x = Ok k /\ k ∈ m.*1.
Proof.
  induction tmp as [|r tmp IH]; simpl; intros acc m H.
  - injection H as <-. exists []. rewrite app_nil_r.
    split; [done|]. split; [done|]. intros x Hx. inversion Hx.
  - apply bind_Ok in H as (k & Hk & H). case_decide as Hin.
    + apply IH in H as (added & -> & Hsub & Hcov). exists added.
      split; [done|]. split; [by apply sublist_cons|].
      intros x [->|Hx]%elem_of_cons; [|by apply Hcov].
      exists k. split; [done|]. rewrite fmap_app, elem_of_app. by left.
    + apply IH in H as (added & -> & Hsub & Hcov).
      exists ((k, r) :: added). split; [by rewrite <- app_assoc|].
      split; [by apply sublist_skip|].
      intros x [->|Hx]%elem_of_cons; [|by apply Hcov].
      exists k. split; [done|]. rewrite !fmap_app, !elem_of_app.
      left. right. simpl. apply list_elem_of_here.
Qed.


Lemma merge_loop_distinct ks (l : list (gmap string value)) :
  Forall2 (fun k r => result_key r = Ok k) ks l ->
  forall acc, NoDup (acc.*1 ++ ks) ->
  merge_loop l acc = Ok (acc ++ zip ks l)%list.
Proof.
  induction 1 as [|k r ks l Hk _ IH]; intros acc Hnd; simpl.
  - by rewrite app_nil_r.
  - rewrite Hk. simpl. apply NoDup_app in Hnd as (Hacc & Hdis & Hks).
    rewrite decide_False; [|intros Hin; apply (Hdis _ Hin); by left].
    rewrite IH.
    + by rewrite <- app_assoc.
    + rewrite fmap_app. simpl. rewrite <- app_assoc. simpl.
      apply NoDup_app. split; [done|]. split; [done|done].
Qed.

(** X8: [_merge_results] is idempotent: applied to its own result it
    returns it unchanged. *)
Theorem merge_results_idempotent tmp res :
  _merge_results tmp = Ok res -> _merge_results res = Ok res.
Proof.
  intros (ks & Hnd & Hks)%merge_results_spec.
  assert (Hk : Forall2 (fun k r => result_key r = Ok k) ks res).
  { eapply Forall2_impl; [apply Hks|]. by intros k r [? _]. }
  unfold _merge_results. rewrite (merge_loop_distinct ks res Hk []); [|done].
  simpl. f_equal. apply snd_zip. by rewrite (Forall2_length _ _ _ Hk).
Qed.

Lemma merge_loop_total tmp : forall acc,
  (forall d, d ∈ tmp -> exists k, result_key d = Ok k) ->
  exists m, merge_loop tmp acc = Ok m.
Proof.
  induction tmp as [|r tmp IH]; intros acc Hk; simpl; [by eauto|].
  destruct (Hk r) as [k ->]; [by left|]. simpl.
  case_decide; apply IH; intros d Hd; apply Hk; by right.
Qed.

Lemma result_key_Raise (r : gmap string value) e :
  result_key r = Raise e ->
  (r !! "report_id" = None /\ e = KeyError "report_id")
  \/ (r !! "input" = None /\ e = KeyError "input").
Proof.
  unfold result_key. destruct (r !! "report_id"); [|intros [= <-]; by left].
  destruct (r !! "input"); [discriminate|]. intros [= <-]. by right.
Qed.

Lemma merge_loop_Raise tmp : forall acc e,
  merge_loop tmp acc = Raise e ->
  exists d, d ∈ tmp /\ result_key d = Raise e.
Proof.
  induction tmp as [|r tmp IH]; intros acc e; simpl; [discriminate|].
  destruct (result_key r) as [k|e0] eqn:Hk; simpl.
  - case_decide; intros (d & Hd & He)%IH; exists d; split; auto; by right.
  - intros [= <-]. exists r. split; [by left|done].
Qed.


End MergeResults.


Lemma merge_results_idempotent_witness :
  @_merge_results Sample.libs [Healthy.entry] = Ok [Healthy.entry].
Proof.
  apply (@merge_results_idempotent Sample.libs
           [Healthy.entry; Healthy.entry] [Healthy.entry]).
  reflexivity.
Defined.

Section ListingEdges.
Context `{L : Libs} `{W : App}.

Local Abbreviation value := (pyval json).

Lemma py_int_Raise s e : py_int s = Raise e -> exists msg, e = ValueError msg.
Proof.
  unfold py_int. destruct (match rstrip (lstrip s) with
                           | EmptyString => _ | String _ _ => _ end);
    [discriminate|]. intros [= <-]. eauto.
Qed.

Lemma parse_probe_asn_Raise v e :
  parse_probe_asn v = Raise e -> exists msg, e = ValueError msg.
Proof.
  destruct v as [s|]; [|discriminate]. simpl.
  destruct (py_int _) as [n|e0] eqn:Hn; [discriminate|].
  intros [= <-]. by eapply py_int_Raise.
Qed.

Lemma parse_bound_Raise name v e :
  parse_bound name v = Raise e -> e = BadRequest ("Invalid " +:+ name).
Proof.
  destruct v as [s|]; [|discriminate]. simpl.
  destruct (parse_date s); [discriminate|]. by intros [= <-].
Qed.

(** The errors of the validation of the arguments. *)
Lemma normalise_Raise req p e :
  normalise req p = Raise e ->
  (exists msg, e = ValueError msg)
  \/ e = HTTPException 400 (Some "Invalid since")
  \/ e = HTTPException 400 (Some "Invalid until")
  \/ e = HTTPException 400 (Some "Invalid order").
Proof.
  unfold normalise.
  destruct (parse_probe_asn _) as [asn|e0] eqn:Ha; simpl;
    [|intros [= <-]; left; by eapply parse_probe_asn_Raise].
  destruct (parse_bound "since" _) as [si|e0] eqn:Hs; simpl;
    [|intros [= <-]; right; left; by apply parse_bound_Raise in Hs].
  destruct (parse_bound "until" _) as [un|e0] eqn:Hu; simpl;
    [|intros [= <-]; right; right; left; by apply parse_bound_Raise in Hu].
  unfold check_order. destruct (_ || _); simpl; [discriminate|].
  intros [= <-]. by repeat right.
Qed.

Lemma row_to_result_Raise row e :
  row_to_result row = Raise e -> e = JSONDecodeError.
Proof.
  unfold row_to_result. destruct (json_loads _); [discriminate|].
  by intros [= <-].
Qed.

Lemma for_each_Raise {A B} (f : A -> result B) l e :
  for_each f l = Raise e -> exists x, x ∈ l /\ f x = Raise e.
Proof.
  induction l as [|x l IH]; simpl; [discriminate|].
  destruct (f x) as [y|e0] eqn:Hx; simpl.
  - destruct (for_each f l) as [ys|e1]; simpl; [discriminate|].
    intros [= <-]. destruct (IH eq_refl) as (x' & Hin & Hx').
    exists x'. split; [by right|done].
  - intros [= <-]. exists x. split; [by left|done].
Qed.

Lemma for_each_total {A B} (f : A -> result B) l :
  (forall x, x ∈ l -> exists y, f x = Ok y) -> exists l', for_each f l = Ok l'.
Proof.
  induction l as [|x l IH]; intros H; simpl; [by eauto|].
  destruct (H x) as [y ->]; [by left|]. simpl.
  destruct IH as [ys ->]; [intros; apply H; by right|]. simpl. eauto.
Qed.

(** The dicts of the joined stream have all the entries the later stages
    read, so deduplication and the restoration of the input succeed. *)
Lemma tmpresults_merge b ob offset limit tmp :
  tmpresults b ob offset limit = Ok tmp ->
  exists merged res,
    _merge_results tmp = Ok merged /\ for_each restore_inull merged = Ok res.
Proof.
  intros (_ & _ & _ & H)%tmpresults_Ok.
  assert (Hkeys : forall d, d ∈ tmp ->
            is_Some (d !! "report_id") /\ is_Some (d !! "input")).
  { intros d Hd. destruct (for_each_elem _ _ _ _ H Hd) as (row & _ & Hrow).
    apply row_to_result_lookup in Hrow
      as (_ & _ & _ & _ & Hrid & _ & _ & _ & _ & Hin & _).
    rewrite Hrid, Hin. split; by eexists. }
  destruct (merge_loop_total tmp []) as [m Hm].
  { intros d Hd. destruct (Hkeys d Hd) as [[a Ha] [c Hc]].
    exists (a, c). unfold result_key. by rewrite Ha, Hc. }
  exists (m.*2). unfold _merge_results. rewrite Hm. simpl.
  apply merge_loop_sublist in Hm as (added & -> & Hsub & _).
  simpl in Hsub. simpl.
  destruct (for_each_total restore_inull (added.*2)) as [res Hres].
  - intros d Hd.
    destruct (Hkeys d) as [_ [v Hv]]; [by eapply sublist_subseteq|].
    unfold restore_inull. rewrite Hv. case_decide; eauto.
  - by exists res.
Qed.


(** X11: with limit 0 the query is run and then the computation of the
    current page divides by zero: once the arguments are valid, the engine
    does not fail and the offset is not negative, [list_measurements] raises
    ZeroDivisionError, an internal error. *)
Theorem list_measurements_limit_zero req p ua f :
  user_agent req = Some ua -> startswith ua "okhttp" = false ->
  normalise req p = Ok f -> execute_fault = None ->
  0 <= p_offset p -> p_limit p = 0 ->
  list_measurements req p = Raise ZeroDivisionError /\
  is_user_error ZeroDivisionError = false.
Proof.
  intros Hu Hua Hf Hfault Hoff Hlim. split; [|done].
  unfold list_measurements. rewrite Hu, Hua, Hf. simpl.
  unfold tmpresults, execute, outer_query. rewrite Hfault, Hlim.
  destruct (p_offset p <? 0) eqn:E; [lia|]. simpl.
  unfold _merge_results. simpl. unfold paginate, math_ceil_div. done.
Qed.

(** X12: a page built by the query never has more results than the limit
    asked for, and its metadata repeat the offset and the limit of the
    call. *)
Theorem list_measurements_page_bound req p resp ua :
  list_measurements req p = Ok resp ->
  user_agent req = Some ua -> startswith ua "okhttp" = false ->
  len (results resp) <= p_limit p /\ 0 < p_limit p /\ 0 <= p_offset p /\
  metadata resp !! "offset" = Some (PInt (p_offset p)) /\
  metadata resp !! "limit" = Some (PInt (p_limit p)).
Proof.
  intros H Hu Hua.
  destruct (list_measurements_Ok _ _ _ _ H Hu Hua)
    as (f & tmp & merged & res & Hf & Htmp & Hm & Hr & Hp).
  apply tmpresults_Ok in Htmp as (_ & Hoff & Hlim & _).
  apply paginate_Ok in Hp as (Hl0 & Hres & Ho & Hl & _).
  rewrite Hres, py_slice_to_length by done. repeat split; try done; lia.
Qed.

Lemma add_where_lockstep mr fp b :
  length (mrwhere b) = length (fpwhere b) ->
  length (mrwhere (add_where mr fp b)) = length (fpwhere (add_where mr fp b)).
Proof. intros H. simpl. rewrite !length_app. simpl. lia. Qed.

Lemma with_param_lockstep {A} (o : option A) k inj mr fp b :
  length (mrwhere b) = length (fpwhere b) ->
  length (mrwhere (with_param o k inj mr fp b))
  = length (fpwhere (with_param o k inj mr fp b)).
Proof.
  intros H. destruct o; [|done]. by apply add_where_lockstep.
Qed.

Lemma with_truthy_lockstep o k mr fp b :
  length (mrwhere b) = length (fpwhere b) ->
  length (mrwhere (with_truthy o k mr fp b))
  = length (fpwhere (with_truthy o k mr fp b)).
Proof.
  intros H. unfold with_truthy. destruct (truthy o); [|done].
  by apply with_param_lockstep.
Qed.

Lemma flag_where_lockstep flag a1 a2 a3 a4 b :
  length (mrwhere b) = length (fpwhere b) ->
  length (mrwhere (flag_where flag a1 a2 a3 a4 b))
  = length (fpwhere (flag_where flag a1 a2 a3 a4 b)).
Proof.
  intros H. destruct flag as [[]|]; [| |done]; by apply add_where_lockstep.
Qed.

(** X13: the two plans are built in lockstep: the canonical query and the
    fastpath query always get the same number of WHERE clauses. *)
Theorem build_plan_lockstep f :
  length (mrwhere (build_plan f)) = length (fpwhere (build_plan f)).
Proof.
  unfold build_plan, when. cbv zeta.
  repeat match goal with
         | |- context [if ?c then _ else _] => destruct c
         end;
    repeat first
      [ apply with_param_lockstep
      | apply with_truthy_lockstep
      | apply flag_where_lockstep
      | apply add_where_lockstep
      | progress cbn [join_tables mrwhere fpwhere] ];
    reflexivity.
Qed.

(** X14: input overrides domain and category_code: with an input filter,
    the plan is the one built without the other two filters. *)
Theorem build_plan_input_overrides f :
  truthy (input_ f) = true ->
  build_plan f = build_plan (without_domain_category f).
Proof.
  intros Hin. unfold build_plan, without_domain_category.
  cbn [report_id probe_asn probe_cc test_name since until failure anomaly
       confirmed input_ domain category_code].
  rewrite Hin. reflexivity.
Qed.

End ListingEdges.


Lemma list_measurements_limit_zero_witness :
  @list_measurements Sample.libs (Sample.world None) Sample.browser
    (Sample.no_filters 0) = Raise ZeroDivisionError /\
  is_user_error ZeroDivisionError = false.
Proof.
  eapply (@list_measurements_limit_zero Sample.libs (Sample.world None)
            Sample.browser (Sample.no_filters 0) "Mozilla/5.0");
    try reflexivity; simpl; lia.
Defined.

Lemma list_measurements_page_bound_witness :
  exists resp,
    @list_measurements Sample.libs (Sample.world None) Sample.browser
      (Sample.no_filters 2) = Ok resp /\
    len (results resp) <= 2 /\
    metadata resp !! "limit" = Some (PInt 2).
Proof.
  eexists. split; [reflexivity|].
  destruct (@list_measurements_page_bound Sample.libs (Sample.world None)
              Sample.browser (Sample.no_filters 2) _ "Mozilla/5.0"
              eq_refl eq_refl eq_refl) as (Hlen & _ & _ & _ & Hlimit).
  split; [exact Hlen|exact Hlimit].
Defined.

Lemma build_plan_input_overrides_witness :
  build_plan Healthy.by_input
  = build_plan (without_domain_category Healthy.by_input).
Proof. apply (build_plan_input_overrides Healthy.by_input). reflexivity. Defined.

Section FilesProperties.
Context `{L : Libs} `{W : App} `{F : Files}.

Local Abbreviation value := (pyval json).

(** The stages of a successful [list_files]. *)
Lemma list_files_Ok req p resp :
  list_files req p = Ok resp ->
  exists probe_asn since until since_index report_no q,
    parse_probe_asn (lf_probe_asn p) = Ok probe_asn /\
    parse_bound "since" (lf_since p) = Ok since /\
    parse_bound "until" (lf_until p) = Ok until /\
    parse_since_index (lf_since_index p) = Ok (since_index, report_no) /\
    lf_limit p <> 0 /\
    files_execute
      (files_plan_of (lf_probe_cc p) probe_asn (lf_test_name p) since until
         since_index report_no)
      (fob (files_order_by (lf_order_by p)) (lf_order p))
      (lf_offset p) (lf_limit p) = Ok q /\
    results resp = map file_result q /\
    metadata resp !! "current_page"
      = Some (PInt (ceil (lf_offset p) (lf_limit p) + 1)) /\
    (len q < lf_limit p ->
       metadata resp !! "count" = Some (PInt (lf_offset p + len q)) /\
       metadata resp !! "pages"
         = Some (PInt (ceil (lf_offset p + len q) (lf_limit p))) /\
       metadata resp !! "next_url" = Some PNone) /\
    (~ len q < lf_limit p ->
       metadata resp !! "count" = Some (PInt (-1)) /\
       metadata resp !! "pages" = Some (PInt (-1)) /\
       metadata resp !! "next_url"
         = Some (PStr (files_next_url req (lf_offset p) (lf_limit p)))).
Proof.
  unfold list_files, len. intros H.
  apply bind_Ok in H as (asn & Hasn & H).
  apply bind_Ok in H as (si & Hsi & H).
  apply bind_Ok in H as (un & Hun & H).
  apply bind_Ok in H as ([sidx rno] & Hidx & H).
  apply bind_Ok in H as (c & [Hl ->]%math_ceil_div_Ok & H).
  apply bind_Ok in H as (q & Hq & H).
  apply bind_Ok in H as ([[count pages] next_url] & Hc & [= <-]).
  exists asn, si, un, sidx, rno, q. simpl.
  do 6 (split; [done|]). split; [done|].
  rewrite length_map in Hc.
  destruct (Z.of_nat (length q) <? lf_limit p) eqn:E.
  - apply bind_Ok in Hc as (pg & [_ ->]%math_ceil_div_Ok & [= <- <- <-]).
    repeat split; try (by simplify_map_eq); intros; try lia;
      repeat split; by simplify_map_eq.
  - injection Hc as <- <- <-.
    repeat split; try (by simplify_map_eq); intros; try lia;
      repeat split; by simplify_map_eq.
Qed.

Lemma files_execute_Ok b ob offset limit q :
  files_execute b ob offset limit = Ok q ->
  files_fault = None /\ 0 <= offset /\ 0 <= limit /\
  q = sql_limit limit
        (sql_offset offset
           (order_report ob (report_select (fwhere b) (fparams b)))).
Proof.
  unfold files_execute. destruct files_fault; [discriminate|].
  destruct (orb _ _) eqn:E; [discriminate|]. intros [= <-].
  apply orb_false_iff in E as [E1 E2]. repeat split; lia.
Qed.


(** X16: a probe_asn or a since_index that parses to 0 is dropped by
    [list_files]: the call is the same as without that argument. *)
Theorem list_files_zero_filters req p s t :
  parse_probe_asn (Some s) = Ok (Some 0) -> py_int t = Ok 0 ->
  list_files req (files_with_probe_asn (Some s) p)
    = list_files req (files_with_probe_asn None p) /\
  list_files req (files_with_since_index (Some t) p)
    = list_files req (files_with_since_index None p).
Proof.
  intros Hs Ht. split.
  - unfold list_files, files_with_probe_asn.
    cbn -[parse_probe_asn parse_bound parse_since_index].
    rewrite Hs. reflexivity.
  - unfold list_files, files_with_since_index, parse_since_index.
    cbn -[parse_probe_asn parse_bound py_int]. rewrite Ht.
    destruct (parse_probe_asn _); [|done].
    destruct (parse_bound "since" _); [|done].
    destruct (parse_bound "until" _); done.
Qed.

(** X17: the index shown for a report whose report_no is not negative,
    given back as since_index, binds the report_no of the query to that
    report's report_no, unless the index is 0, which is dropped. *)
Theorem list_files_index_round_trip row cc asn tn since until :
  0 <= rp_report_no row ->
  let i := rp_report_no row + REPORT_INDEX_OFFSET in
  file_result row !! "index" = Some (PInt i) /\
  parse_since_index (Some (str_of_Z i)) = Ok (Some i, rp_report_no row) /\
  let b := files_plan_of cc asn tn since until (Some i) (rp_report_no row) in
  (i <> 0 ->
     fparams b !! "report_no" = Some (QInt (rp_report_no row)) /\
     "report_no > :report_no" ∈ fwhere b) /\
  (i = 0 -> b = files_plan_of cc asn tn since until None 0).
Proof.
  intros Hr i. split; [unfold file_result; by simplify_map_eq|].
  split.
  { unfold parse_since_index. rewrite py_int_str_of_Z. simpl.
    do 3 f_equal. unfold i. lia. }
  intros b. unfold b, files_plan_of. split.
  - intros Hi. simpl. destruct (i =? 0) eqn:E; [lia|]. simpl.
    split; [by rewrite lookup_insert_eq|].
    apply elem_of_app. right. by left.
  - intros ->. reflexivity.
Qed.

(** X18: [list_files] computes the current page before it runs the query:
    with limit 0 and valid arguments it raises ZeroDivisionError whatever
    the state of the store. *)
Theorem list_files_limit_zero req p asn since until si :
  parse_probe_asn (lf_probe_asn p) = Ok asn ->
  parse_bound "since" (lf_since p) = Ok since ->
  parse_bound "until" (lf_until p) = Ok until ->
  parse_since_index (lf_since_index p) = Ok si ->
  lf_limit p = 0 ->
  list_files req p = Raise ZeroDivisionError.
Proof.
  intros Ha Hs Hu Hi Hl. unfold list_files.
  rewrite Ha, Hs, Hu, Hi. simpl. destruct si. rewrite Hl. reflexivity.
Qed.


End FilesProperties.


Lemma list_files_zero_filters_witness :
  @list_files Sample.libs Healthy.world (Healthy.files None) Sample.browser
    (files_with_probe_asn (Some "AS0") (Healthy.all_files 10))
  = @list_files Sample.libs Healthy.world (Healthy.files None) Sample.browser
      (files_with_probe_asn None (Healthy.all_files 10)).
Proof.
  apply (@list_files_zero_filters Sample.libs Healthy.world
           (Healthy.files None) Sample.browser (Healthy.all_files 10)
           "AS0" "0"); reflexivity.
Defined.

Lemma list_files_index_round_trip_witness :
  @file_result Sample.libs Healthy.world (Healthy.files None) Healthy.rep1
    !! "index" = Some (PInt 1004) /\
  @parse_since_index (Healthy.files None) (Some "1004") = Ok (Some 1004, 4).
Proof.
  destruct (@list_files_index_round_trip Sample.libs Healthy.world
              (Healthy.files None) Healthy.rep1 None None None None None)
    as (Hindex & Hparse & _); [simpl; lia|].
  split; [exact Hindex|exact Hparse].
Defined.

Lemma list_files_limit_zero_witness :
  @list_files Sample.libs Healthy.world
    (Healthy.files (Some (SQLAlchemyError "ProgrammingError")))
    Sample.browser (Healthy.all_files 0) = Raise ZeroDivisionError.
Proof.
  eapply (@list_files_limit_zero Sample.libs Healthy.world
            (Healthy.files (Some (SQLAlchemyError "ProgrammingError")))
            Sample.browser (Healthy.all_files 0)); reflexivity.
Defined.


Section SetupProperties.
Import Setup.

Lemma cfg_get_keys k c v : cfg_get k c = Some v -> k ∈ cfg_keys c.
Proof.
  induction c as [|[k' v'] c IH]; simpl; [discriminate|].
  destruct (String.eqb_spec k' k) as [->|]; [by left|].
  intros H. right. by apply IH.
Qed.

Lemma cfg_keys_get k c : k ∈ cfg_keys c -> is_Some (cfg_get k c).
Proof.
  induction c as [|[k' v'] c IH]; simpl.
  - intros H. inversion H.
  - destruct (String.eqb_spec k' k) as [->|Hne]; [by eauto|].
    intros [?|?]%elem_of_cons; [congruence|by apply IH].
Qed.

Lemma cfg_get_set_eq k v c : cfg_get k (cfg_set k v c) = Some v.
Proof.
  induction c as [|[k' v'] c IH]; simpl.
  - by rewrite String.eqb_refl.
  - destruct (String.eqb k' k) eqn:E; simpl; rewrite ?E; [|done].
    by rewrite String.eqb_refl.
Qed.

(** X20: [init_app] never passes to the logger a configuration key whose
    name contains "_SECRET_" or "DATABASE_URL": every debug call is "key:
    value" for a key of the final configuration that contains neither, and
    every such key is logged. *)
Theorem init_app_never_logs_secrets loaded testmode a :
  init_app loaded testmode = inr a ->
  (forall line, line ∈ debug_calls a ->
     exists key v,
       cfg_get key (config a) = Some v /\
       line = key +:+ ": " +:+ format_cfg v /\
       contains "_SECRET_" key = false /\
       contains "DATABASE_URL" key = false) /\
  (forall key v,
     cfg_get key (config a) = Some v ->
     contains "_SECRET_" key = false -> contains "DATABASE_URL" key = false ->
     (key +:+ ": " +:+ format_cfg v) ∈ debug_calls a).
Proof.
  unfold init_app. destruct (cfg_get "APP_ENV" loaded) as [env|];
    [|discriminate].
  intros H.
  assert (exists conf, config a = conf /\
            debug_calls a =
              flat_map (fun key =>
                if is_secret key then []
                else [key +:+ ": "
                      +:+ from_option format_cfg "" (cfg_get key conf)])
                (cfg_keys conf)) as (conf & Hc & Hl).
  { destruct (cfg_is env "production"); [injection H as <-; by eauto|].
    destruct (cfg_is env "development"); [injection H as <-; by eauto|].
    destruct (negb _); [discriminate|]. injection H as <-. by eauto. }
  rewrite Hc, Hl. clear H Hc Hl. split.
  - intros line Hin. apply list_elem_of_In, in_flat_map in Hin
      as (key & Hkey & Hin).
    destruct (is_secret key) eqn:Hs; [by destruct Hin|].
    destruct Hin as [<-|[]].
    apply list_elem_of_In, cfg_keys_get in Hkey as [v Hv].
    exists key, v. rewrite Hv. split; [done|]. split; [done|].
    unfold is_secret in Hs. simpl in Hs.
    by repeat apply orb_false_iff in Hs as [? Hs].
  - intros key v Hv H1 H2. apply list_elem_of_In, in_flat_map.
    exists key. split; [by apply list_elem_of_In, (cfg_get_keys _ _ v)|].
    unfold is_secret. simpl. rewrite H1, H2, Hv. simpl. by left.
Qed.

(** X21: [init_app] fails exactly when APP_ENV is missing from the
    configuration or is none of production, development, testing and
    staging; when it succeeds, Sentry is set up exactly in production, the
    logger gets one stream handler unless in test mode, and the
    configuration is changed only in development. *)
Theorem init_app_environments loaded testmode :
  match init_app loaded testmode with
  | inl e =>
      (cfg_get "APP_ENV" loaded = None /\ e = ConfigKeyError "APP_ENV")
      \/ (exists env,
            cfg_get "APP_ENV" loaded = Some env /\ e = UnexpectedAppEnv env /\
            forall name,
              name ∈ ["production"; "development"; "testing"; "staging"] ->
              env <> CStr name)
  | inr a =>
      exists name,
        cfg_get "APP_ENV" loaded = Some (CStr name) /\
        name ∈ ["production"; "development"; "testing"; "staging"] /\
        (is_Some (sentry_dsn a) <-> name = "production") /\
        stream_handlers a = (if testmode then 0%nat else 1%nat) /\
        (name <> "development" -> config a = loaded) /\
        (name = "development" ->
           cfg_get "DEBUG" (config a) = Some (CBool true))
  end.
Proof.
  unfold init_app. destruct (cfg_get "APP_ENV" loaded) as [env|];
    [|left; by auto].
  destruct env as [s| | |]; simpl.
  2-4: right; eexists; split; [done|]; split; [done|]; by intros.
  destruct (String.eqb_spec s "production") as [->|Hp].
  { exists "production". simpl. split; [done|]. split; [set_solver|].
    split; [split; [done|by eauto]|]. split; [done|]. split; done. }
  destruct (String.eqb_spec s "development") as [->|Hd].
  { exists "development". simpl. split; [done|]. split; [set_solver|].
    split; [split; [by intros [? ?]|done]|]. split; [done|].
    split; [done|]. intros _. apply cfg_get_set_eq. }
  destruct (String.eqb_spec s "testing") as [->|Ht].
  { exists "testing". simpl. split; [done|]. split; [set_solver|].
    split; [split; [by intros [? ?]|done]|]. split; [done|]. split; done. }
  destruct (String.eqb_spec s "staging") as [->|Hs]; simpl.
  { exists "staging". simpl. split; [done|]. split; [set_solver|].
    split; [split; [by intros [? ?]|done]|]. split; [done|]. split; done. }
  right. exists (CStr s). split; [done|]. split; [done|].
  intros name Hin [= ->]. set_solver.
Qed.

End SetupProperties.

Lemma init_app_never_logs_secrets_witness :
  exists a,
    Setup.init_app Healthy.loaded false = inr a /\
    ("BASE_URL: https://api.ooni.io/" ∈ Setup.debug_calls a) /\
    forall line, line ∈ Setup.debug_calls a ->
      exists key v,
        Setup.cfg_get key (Setup.config a) = Some v /\
        line = key +:+ ": " +:+ Setup.format_cfg v /\
        Setup.contains "_SECRET_" key = false /\
        Setup.contains "DATABASE_URL" key = false.
Proof.
  eexists. split; [reflexivity|].
  destruct (init_app_never_logs_secrets Healthy.loaded false _ eq_refl)
    as (Honly & Hall).
  split; [|exact Honly].
  apply (Hall "BASE_URL" (Setup.CStr "https://api.ooni.io/")); reflexivity.
Defined.

(** ** Aggregated counters *)

Section AggregationProperties.
Context `{L : Libs} `{C : !Counters}.

Local Abbreviation value := (pyval json).
Local Abbreviation code_point_order :=
  (fun a b : string => String.leb a b = true).

Lemma insert_sorted_perm k l : insert_sorted k l ≡ₚ k :: l.
Proof.
  induction l as [|x l IH]; simpl; [done|].
  destruct (String.leb k x); [done|]. by rewrite IH, Permutation_swap.
Qed.

Lemma sorted_perm l : sorted l ≡ₚ l.
Proof.
  induction l as [|x l IH]; simpl; [done|].
  by rewrite insert_sorted_perm, IH.
Qed.

Lemma insert_sorted_HdRel k x l :
  String.leb x k = true -> HdRel code_point_order x l ->
  HdRel code_point_order x (insert_sorted k l).
Proof.
  intros Hxk Hl. destruct l as [|y l]; simpl; [by constructor|].
  destruct (String.leb k y); constructor; [done|]. by inversion Hl.
Qed.

Lemma insert_sorted_Sorted k l :
  Sorted code_point_order l -> Sorted code_point_order (insert_sorted k l).
Proof.
  induction 1 as [|x l Hl IH Hx]; simpl; [by repeat constructor|].
  destruct (String.leb k x) eqn:E.
  - constructor; [by constructor|]. by constructor.
  - constructor; [done|]. apply insert_sorted_HdRel; [|done].
    destruct (String.leb_total k x) as [H|H]; [congruence|done].
Qed.

Lemma sorted_Sorted l : Sorted code_point_order (sorted l).
Proof.
  induction l as [|x l IH]; simpl; [constructor|].
  by apply insert_sorted_Sorted.
Qed.

Lemma dict_keys_lookup (d : gmap string value) k :
  k ∈ dict_keys d <-> is_Some (d !! k).
Proof.
  unfold dict_keys. rewrite list_elem_of_fmap. split.
  - intros ([k' v] & -> & Hin). apply elem_of_map_to_list in Hin. by eexists.
  - intros [v Hv]. exists (k, v). split; [done|].
    by apply elem_of_map_to_list.
Qed.

Lemma dict_writerow_Ok fieldnames (d : gmap string value) :
  (forall k, is_Some (d !! k) -> k ∈ fieldnames) ->
  dict_writerow fieldnames d
  = inr (csv_writerow ((fun k => default (PStr "") (d !! k)) <$> fieldnames)).
Proof.
  intros H. unfold dict_writerow.
  destruct (forallb _ _) eqn:E; [done|]. exfalso.
  apply not_true_iff_false in E. apply E, forallb_forall.
  intros k Hk. apply bool_decide_eq_true. apply H, dict_keys_lookup.
  by apply list_elem_of_In.
Qed.

Lemma dict_writerow_inl fieldnames (d : gmap string value) e :
  dict_writerow fieldnames d = inl e ->
  e = FieldsError /\ exists k, is_Some (d !! k) /\ k ∉ fieldnames.
Proof.
  unfold dict_writerow. destruct (forallb _ _) eqn:E; [discriminate|].
  intros [= <-]. split; [done|].
  destruct (decide (Forall (fun k => k ∈ fieldnames) (dict_keys d)))
    as [Hall|Hex].
  - exfalso. apply not_true_iff_false in E. apply E, forallb_forall.
    intros k Hk. apply bool_decide_eq_true.
    rewrite Forall_forall in Hall. by apply Hall, list_elem_of_In.
  - apply not_Forall_Exists in Hex; [|apply _].
    apply Exists_exists in Hex as (k & Hk & Hn).
    exists k. split; [by apply dict_keys_lookup|done].
Qed.

Lemma write_rows_Ok fieldnames (rows : list (gmap string value)) :
  Forall (fun d => forall k, is_Some (d !! k) -> k ∈ fieldnames) rows ->
  write_rows fieldnames rows
  = inr (foldr (fun d rest =>
                  csv_writerow ((fun k => default (PStr "") (d !! k))
                                  <$> fieldnames) +:+ rest) "" rows).
Proof.
  induction 1 as [|d rows Hd _ IH]; simpl; [done|].
  by rewrite (dict_writerow_Ok _ _ Hd), IH.
Qed.

Lemma write_rows_inl fieldnames (rows : list (gmap string value)) e :
  write_rows fieldnames rows = inl e ->
  e = FieldsError /\
  exists d k, d ∈ rows /\ is_Some (d !! k) /\ k ∉ fieldnames.
Proof.
  induction rows as [|d rows IH]; simpl; [discriminate|].
  destruct (dict_writerow fieldnames d) as [e0|line] eqn:Hd.
  - intros [= <-]. apply dict_writerow_inl in Hd as (-> & k & Hk & Hn).
    split; [done|]. exists d, k. split; [by left|done].
  - destruct (write_rows fieldnames rows) as [e0|rest]; [|discriminate].
    intros [= <-]. destruct (IH eq_refl) as (-> & d' & k & Hin & Hk & Hn).
    split; [done|]. exists d', k. split; [by right|done].
Qed.

(** X22: the CSV of a list of rows.  When every row has only columns of
    the first row, as the rows of one query result do, [_convert_to_csv]
    succeeds: the header is the columns of the first row in increasing
    order, and it is followed by one line per row, in the order of the
    rows, with the values in the order of the header and the empty string
    for a column the row lacks. *)
Theorem convert_to_csv_rows (d0 : gmap string value) rows :
  Forall (fun d : gmap string value => dom d ⊆ dom d0) rows ->
  exists fieldnames,
    fieldnames ≡ₚ dict_keys d0 /\
    Sorted code_point_order fieldnames /\
    _convert_to_csv (Rows (d0 :: rows))
    = inr (csv_writerow (PStr <$> fieldnames) +:+
           foldr (fun d rest =>
                    csv_writerow ((fun k => default (PStr "") (d !! k))
                                    <$> fieldnames) +:+ rest)
             "" (d0 :: rows)).
Proof.
  intros H. exists (sorted (dict_keys d0)).
  split; [apply sorted_perm|]. split; [apply sorted_Sorted|].
  unfold _convert_to_csv. cbv zeta. rewrite write_rows_Ok; [done|].
  constructor.
  - intros k Hk. rewrite sorted_perm. by apply dict_keys_lookup.
  - eapply Forall_impl; [apply H|]. intros d Hd k Hk. simpl in Hd.
    rewrite sorted_perm. apply dict_keys_lookup.
    apply elem_of_dom. apply Hd. by apply elem_of_dom.
Qed.

(** X23: the failures of [_convert_to_csv].  It fails on the empty list,
    where [r[0]] raises IndexError, and otherwise only with the ValueError
    of DictWriter, when a row after the first has a column that the first
    row does not have; a single dict always converts. *)
Theorem convert_to_csv_failures r e :
  _convert_to_csv r = inl e ->
  (r = Rows [] /\ e = IndexError)
  \/ (e = FieldsError /\
      exists (d0 d : gmap string value) rows k,
        r = Rows (d0 :: rows) /\ d ∈ rows /\
        is_Some (d !! k) /\ d0 !! k = None).
Proof.
  destruct r as [d|[|d0 rows]]; unfold _convert_to_csv; cbv zeta.
  - rewrite dict_writerow_Ok; [discriminate|].
    intros k Hk. rewrite sorted_perm. by apply dict_keys_lookup.
  - intros [= <-]. by left.
  - destruct (write_rows _ _) as [e0|body] eqn:Hw; [|discriminate].
    intros [= <-]. right.
    apply write_rows_inl in Hw as (-> & d & k & Hin & Hk & Hn).
    split; [done|]. rewrite sorted_perm, dict_keys_lookup in Hn.
    apply eq_None_not_Some in Hn.
    apply elem_of_cons in Hin as [->|Hin].
    + destruct Hk as [v Hv]. congruence.
    + by exists d0, d, rows, k.
Qed.

Lemma parse_date_or_raise_Raise s e :
  parse_date_or_raise s = Raise e ->
  parse_date s = None /\ e = ValueError (parse_date_error s).
Proof.
  unfold parse_date_or_raise. destruct (parse_date s); [discriminate|].
  by intros [= <-].
Qed.

Lemma truthy_Some o : truthy o = true -> exists s, o = Some s /\ s <> "".
Proof.
  destruct o as [s|]; [|discriminate]. simpl. intros H. exists s.
  split; [done|]. intros ->. discriminate.
Qed.

Lemma agg_build_Raise p e :
  agg_build p = Raise e ->
  (exists s, ag_probe_asn p = Some s /\ parse_probe_asn (Some s) = Raise e)
  \/ (exists s, (ag_since p = Some s \/ ag_until p = Some s) /\
        parse_date s = None /\ e = ValueError (parse_date_error s)).
Proof.
  unfold agg_build. cbv zeta.
  destruct (ag_probe_asn p) as [s|] eqn:Ha.
  - destruct (parse_probe_asn (Some s)) as [asn|e0] eqn:Hp;
      [|intros [= <-]; left; by exists s].
    cbn [mbind result_bind].
    destruct (truthy (ag_since p)) eqn:Hs.
    + apply truthy_Some in Hs as (s1 & Hs1 & _). rewrite Hs1. simpl default.
      destruct (parse_date_or_raise s1) as [t1|e1] eqn:Hd1;
        [|intros [= <-]; right; exists s1;
          apply parse_date_or_raise_Raise in Hd1; tauto].
      cbn [mbind result_bind].
      destruct (truthy (ag_until p)) eqn:Hu; [|discriminate].
      apply truthy_Some in Hu as (s2 & Hs2 & _). rewrite Hs2. simpl default.
      destruct (parse_date_or_raise s2) as [t2|e2] eqn:Hd2; [discriminate|].
      intros [= <-]. right. exists s2.
      apply parse_date_or_raise_Raise in Hd2. tauto.
    + cbn [mbind result_bind].
      destruct (truthy (ag_until p)) eqn:Hu; [|discriminate].
      apply truthy_Some in Hu as (s2 & Hs2 & _). rewrite Hs2. simpl default.
      destruct (parse_date_or_raise s2) as [t2|e2] eqn:Hd2; [discriminate|].
      intros [= <-]. right. exists s2.
      apply parse_date_or_raise_Raise in Hd2. tauto.
  - cbn [mbind result_bind].
    destruct (truthy (ag_since p)) eqn:Hs.
    + apply truthy_Some in Hs as (s1 & Hs1 & _). rewrite Hs1. simpl default.
      destruct (parse_date_or_raise s1) as [t1|e1] eqn:Hd1;
        [|intros [= <-]; right; exists s1;
          apply parse_date_or_raise_Raise in Hd1; tauto].
      cbn [mbind result_bind].
      destruct (truthy (ag_until p)) eqn:Hu; [|discriminate].
      apply truthy_Some in Hu as (s2 & Hs2 & _). rewrite Hs2. simpl default.
      destruct (parse_date_or_raise s2) as [t2|e2] eqn:Hd2; [discriminate|].
      intros [= <-]. right. exists s2.
      apply parse_date_or_raise_Raise in Hd2. tauto.
    + cbn [mbind result_bind].
      destruct (truthy (ag_until p)) eqn:Hu; [|discriminate].
      apply truthy_Some in Hu as (s2 & Hs2 & _). rewrite Hs2. simpl default.
      destruct (parse_date_or_raise s2) as [t2|e2] eqn:Hd2; [discriminate|].
      intros [= <-]. right. exists s2.
      apply parse_date_or_raise_Raise in Hd2. tauto.
Qed.

Lemma agg_build_until p q :
  agg_build p = Ok q -> truthy (ag_until p) = true ->
  exists s t, ag_until p = Some s /\ s <> "" /\ parse_date s = Some t /\
    parse_date_or_raise (default "" (ag_until p)) = Ok t.
Proof.
  intros H Hu. pose proof Hu as (s & Hs & Hne)%truthy_Some.
  exists s. rewrite Hs. simpl default.
  unfold agg_build in H. cbv zeta in H. rewrite Hu, Hs in H.
  simpl default in H.
  destruct (parse_date_or_raise s) as [t|e] eqn:Hd.
  - exists t. repeat split; try done.
    unfold parse_date_or_raise in Hd. destruct (parse_date s); congruence.
  - exfalso.
    destruct (match ag_probe_asn p with None => _ | Some _ => _ end);
      [|discriminate].
    cbn [mbind result_bind] in H.
    destruct (if truthy (ag_since p) then _ else _); discriminate.
Qed.


Lemma get_aggregated_answer p q :
  agg_build p = Ok q ->
  exists cacheable,
    get_aggregated p
    = match agg_answer p ((if truthy (ag_axis_x p) then 1 else 0)
                          + (if truthy (ag_axis_y p) then 1 else 0))
              cacheable q with
      | inl e => Ok (AggError e)
      | inr resp => Ok resp
      end /\
    (cacheable = true <->
     exists s t, ag_until p = Some s /\ s <> "" /\ parse_date s = Some t /\
       t < datetime_now - hours_72).
Proof.
  intros Hq. unfold get_aggregated. cbv zeta. rewrite Hq.
  destruct (truthy (ag_until p)) eqn:Hu.
  - destruct (agg_build_until _ _ Hq Hu) as (s & t & Hs & Hne & Hd & ->).
    exists (t <? datetime_now - hours_72). split; [done|].
    rewrite Z.ltb_lt. split.
    + intros Hlt. by exists s, t.
    + intros (s' & t' & Hs' & _ & Hd' & Hlt). congruence.
  - exists false. split; [done|]. split; [discriminate|].
    intros (s & t & Hs & Hne & _). rewrite Hs in Hu. simpl in Hu.
    apply negb_false_iff, String.eqb_eq in Hu. done.
Qed.



(** X27: the JSON answer.  Its dimension_count is the number of axes
    given, its result is one dict when there is no axis and a list
    otherwise, and it is cacheable, for one day, exactly when until is
    given and lies more than 72 hours before now. *)
Theorem get_aggregated_cache p n r m :
  get_aggregated p = Ok (AggJson n r m) ->
  n = (if truthy (ag_axis_x p) then 1 else 0)
      + (if truthy (ag_axis_y p) then 1 else 0) /\
  match r with Row _ => n = 0 | Rows _ => 0 < n end /\
  (m = None \/ m = Some 86400) /\
  (m = Some 86400 <->
   exists s t, ag_until p = Some s /\ s <> "" /\ parse_date s = Some t /\
     t < datetime_now - hours_72).
Proof.
  intros H. destruct (agg_build p) as [q|e] eqn:Hq.
  2:{ unfold get_aggregated in H. cbv zeta in H. rewrite Hq in H.
      destruct (if truthy (ag_until p) then _ else _); discriminate. }
  destruct (get_aggregated_answer _ _ Hq) as (c & Hg & Hc).
  rewrite Hg in H. clear Hg. unfold agg_answer in H.
  destruct (counters_execute q) as [rows|e]; [|discriminate].
  assert (Hm : forall m', (if c then Some (3600 * 24) else None) = m' ->
            (m' = None \/ m' = Some 86400) /\
            (m' = Some 86400 <->
             exists s t, ag_until p = Some s /\ s <> "" /\
               parse_date s = Some t /\ t < datetime_now - hours_72)).
  { intros m' <-. rewrite <- Hc. destruct c; split; auto; split; done. }
  destruct (truthy (ag_axis_x p)), (truthy (ag_axis_y p));
    (destruct (_ + _ =? 2) eqn:E2; try (vm_compute in E2; discriminate));
    cbn [orb] in H;
    try (destruct rows as [|d rows]; [discriminate|]);
    (destruct (String.eqb (ag_format p) "CSV");
     [destruct (_convert_to_csv _); discriminate|]);
    injection H as <- <- Hm'; apply Hm in Hm';
    (split; [reflexivity|]); (split; [reflexivity|exact Hm']).
Qed.

End AggregationProperties.

Lemma convert_to_csv_rows_witness :
  exists fieldnames,
    fieldnames ≡ₚ @dict_keys Sample.libs Tally.italy /\
    @_convert_to_csv Sample.libs (Tally.counters None)
      (Rows [Tally.italy; Tally.greece])
    = inr (@csv_writerow Sample.libs (Tally.counters None)
             (PStr <$> fieldnames) +:+
           foldr (fun d rest =>
                    @csv_writerow Sample.libs (Tally.counters None)
                      ((fun k => default (PStr "") (d !! k)) <$> fieldnames)
                    +:+ rest)
             "" [Tally.italy; Tally.greece]).
Proof.
  destruct (@convert_to_csv_rows Sample.libs (Tally.counters None)
              Tally.italy [Tally.greece])
    as (fieldnames & Hperm & _ & Hcsv).
  - constructor; [|constructor].
    apply (bool_decide_unpack
             (dom Tally.greece ⊆@{gset string} dom Tally.italy)).
    vm_compute. reflexivity.
  - exists fieldnames. split; [exact Hperm|exact Hcsv].
Defined.

Lemma convert_to_csv_failures_witness :
  (@Rows Sample.libs [Tally.total; Tally.italy] = Rows [] /\
   FieldsError = IndexError)
  \/ (FieldsError = FieldsError /\
      exists (d0 d : gmap string (pyval (@json Sample.libs))) rows k,
        Rows [Tally.total; Tally.italy] = Rows (d0 :: rows) /\ d ∈ rows /\
        is_Some (d !! k) /\ d0 !! k = None).
Proof.
  apply (@convert_to_csv_failures Sample.libs (Tally.counters None)
           (Rows [Tally.total; Tally.italy]) FieldsError).
  vm_compute. reflexivity.
Defined.




Lemma get_aggregated_cache_witness :
  exists r,
    @get_aggregated Sample.libs (Tally.counters None)
      (Tally.by_country (Some "5") "JSON")
    = Ok (AggJson 1 r (Some 86400)) /\
    exists s t,
      ag_until (Tally.by_country (Some "5") "JSON") = Some s /\ s <> "" /\
      @parse_date Sample.libs s = Some t /\
      t < @datetime_now Sample.libs (Tally.counters None)
          - @hours_72 Sample.libs (Tally.counters None).
Proof.
  eexists. split; [reflexivity|].
  destruct (@get_aggregated_cache Sample.libs (Tally.counters None)
              (Tally.by_country (Some "5") "JSON") _ _ _ eq_refl)
    as (_ & _ & _ & Hcache).
  apply Hcache. reflexivity.
Defined.
